(** * GroundPolylinePrimitive: decomposition and attribute synchronisation

    Shallow embedding of [Source/Scene/GroundPolylinePrimitive.js]:
    the constructor, the appearance and the property [material], the
    function [decompose], [update], the helpers [getAttributeValue],
    [createSetFunction], [createGetFunction],
    [InstanceAttributeSynchronizer], and [getGeometryInstanceAttributes].
    A second part embeds the point cloud stream of the repository.

    Conventions.
    - A JavaScript number is idealised as a rational ([Q]); rounding of
      double precision arithmetic is not modelled.
    - Array lengths and attribute indices are [nat]; instance indices are
      [Z], because the source computes [length - 1], which is [-1] on an
      empty array.
    - A call either returns or throws: [completion].  Code that mutates the
      batch table threads it explicitly and keeps the mutated table when it
      throws, as a JavaScript exception does not undo earlier writes.
    - The dependency list of the module binds none of [Cartesian2],
      [Cartesian3], [Cartesian4], [DeveloperError] and the scratch results
      that the helpers name.  The module is strict code, so evaluating one
      of these names raises a ReferenceError, which the embedding records
      with the name.
    - [_idsToInstanceIndices] and [_attributeSynchronizerCache] are plain
      objects: a key that the object does not own is read through
      [Object.prototype].  Assigning the key [__proto__] replaces the
      prototype of the object instead of creating a property; a batch with
      a line of that id is outside the embedding of the index.
    - [update] reads [frameState.mapProjection.ellipsoid] without using it;
      frame states are taken to have a map projection. *)

From Stdlib Require Import ZArith QArith List String Lia.
From stdpp Require Import gmap strings list fin_maps.

Local Open Scope Z_scope.

(** ** Completions *)

(** The errors the code raises: the use of a name that is not bound, and
    the use of [undefined] as an object. *)
Inductive Error : Type :=
| ReferenceError (name : string)
| TypeError.

Inductive completion (A : Type) : Type :=
| Normal (a : A)
| Throw (e : Error).

Arguments Normal {A} a.
Arguments Throw {A} e.

(** Computations over a mutable object of type [S]: the object is returned
    next to the completion, also when the completion is a [Throw]. *)
Definition Js (S A : Type) : Type := S -> completion A * S.

Definition js_ret {S A} (a : A) : Js S A := fun s => (Normal a, s).

Definition js_throw {S A} (e : Error) : Js S A := fun s => (Throw e, s).

Definition js_bind {S A B} (m : Js S A) (k : A -> Js S B) : Js S B :=
  fun s =>
    match m s with
    | (Normal a, s') => k a s'
    | (Throw e, s') => (Throw e, s')
    end.

Definition js_lift {S A} (c : completion A) : Js S A := fun s => (c, s).

Definition js_modify {S} (f : S -> S) : Js S unit := fun s => (Normal tt, f s).

Notation "'call' x <- m ; k" := (js_bind m (fun x => k))
  (at level 10, x name, m at level 100, k at level 200).
Notation "'run' m ; k" := (js_bind m (fun _ => k))
  (at level 10, m at level 100, k at level 200).

(** ** Attribute values *)

(** What a slot of the batch table holds: a number, a Cartesian of 2, 3 or
    4 components, or [undefined]. *)
Inductive AttributeValue : Type :=
| Undefined
| Scalar (x : Q)
| Cartesian2 (x y : Q)
| Cartesian3 (x y z : Q)
| Cartesian4 (x y z w : Q).

(** Modelled from the spec: [Core/ComponentDatatype] is imported by the
    source but is not part of it; the spec only says that an attribute has a
    component type.  The source names [UNSIGNED_BYTE]. *)
Inductive ComponentDatatype : Type :=
| BYTE | UNSIGNED_BYTE | SHORT | UNSIGNED_SHORT
| INT | UNSIGNED_INT | FLOAT | DOUBLE.

(** The conversion a typed array of a given component datatype applies to a
    number stored in it ([ComponentDatatype.createTypedArray] is outside the
    source): a parameter of the development. *)
Class ComponentStorage : Type :=
  { toComponent : ComponentDatatype -> Q -> Q }.

(** A number is representable in a datatype when storing it changes
    nothing. *)
Definition representable `{ComponentStorage} (dt : ComponentDatatype) (x : Q) : Prop :=
  toComponent dt x = x.

(** A typed array is the list of its elements; its datatype is passed to the
    operations that store into it. *)
Definition createTypedArray (dt : ComponentDatatype) (n : nat) : list Q :=
  repeat 0%Q n.

(** [array[i] = x] on a typed array: converted on the way in, ignored out of
    range. *)
Definition typedArrayStore `{ComponentStorage}
    (dt : ComponentDatatype) (i : nat) (x : Q) (array : list Q) : list Q :=
  <[i := toComponent dt x]> array.

(** ** The codec *)

Definition component (value : list Q) (i : nat) : Q := nth i value 0%Q.

(** [getAttributeValue]: the arity is the length of [value].  One
    component is returned as it is.  For 2, 3 and 4 components the call
    [CartesianN.unpack(value, 0, scratch)] starts by evaluating
    [CartesianN], which is not bound.  Outside 1..4 every condition of the
    chain is false and the function falls off its end, returning
    [undefined]. *)
Definition getAttributeValue (value : list Q) : completion AttributeValue :=
  let componentsPerAttribute := length value in
  if Nat.eqb componentsPerAttribute 1 then
    Normal (Scalar (component value 0))
  else if Nat.eqb componentsPerAttribute 2 then
    Throw (ReferenceError "Cartesian2")
  else if Nat.eqb componentsPerAttribute 3 then
    Throw (ReferenceError "Cartesian3")
  else if Nat.eqb componentsPerAttribute 4 then
    Throw (ReferenceError "Cartesian4")
  else Normal Undefined.

(** [CartesianN.pack(value, array, 0)]. *)
Definition pack `{ComponentStorage}
    (dt : ComponentDatatype) (attributeValue : AttributeValue) (array : list Q) : list Q :=
  match attributeValue with
  | Undefined => array
  | Scalar x => array
  | Cartesian2 x y =>
      typedArrayStore dt 1 y (typedArrayStore dt 0 x array)
  | Cartesian3 x y z =>
      typedArrayStore dt 2 z (typedArrayStore dt 1 y (typedArrayStore dt 0 x array))
  | Cartesian4 x y z w =>
      typedArrayStore dt 3 w (typedArrayStore dt 2 z
        (typedArrayStore dt 1 y (typedArrayStore dt 0 x array)))
  end.

(** The pack step of [createGetFunction]: a fresh typed array of the
    attribute's datatype and arity, filled by the value's own [pack] when its
    constructor has one, by [value[0] = attributeValue] otherwise.  Reading
    [.constructor] of [undefined] is a TypeError. *)
Definition packStep `{ComponentStorage}
    (dt : ComponentDatatype) (componentsPerAttribute : nat)
    (attributeValue : AttributeValue) : completion (list Q) :=
  let value := createTypedArray dt componentsPerAttribute in
  match attributeValue with
  | Undefined => Throw TypeError
  | Scalar x => Normal (typedArrayStore dt 0 x value)
  | _ => Normal (pack dt attributeValue value)
  end.

(** ** The batch table *)

Record BatchAttribute : Type :=
  { componentDatatype : ComponentDatatype;
    componentsPerAttribute : nat }.

(** Modelled from the spec: [Scene/BatchTable] is outside the source.  The
    spec describes the Batched Attribute Store as one slot per (segment
    index, attribute index), with attribute definitions fixed when the batch
    is built.  A write replaces the slot, a read returns it; a slot never
    written reads as [undefined]. *)
Record BatchTable : Type :=
  { attributes : list BatchAttribute;
    batchValues : gmap (Z * nat) AttributeValue }.

Definition getBatchedAttribute
    (batchTable : BatchTable) (instanceIndex : Z) (attributeIndex : nat) : AttributeValue :=
  default Undefined (batchValues batchTable !! (instanceIndex, attributeIndex)).

Definition setBatchedAttribute
    (instanceIndex : Z) (attributeIndex : nat) (value : AttributeValue)
    (batchTable : BatchTable) : BatchTable :=
  {| attributes := attributes batchTable;
     batchValues := <[(instanceIndex, attributeIndex) := value]> (batchValues batchTable) |}.

(** ** Setter and getter of a synchronised attribute *)

(** The argument of a setter: [undefined], a defined value without a
    [length], or an array of numbers. *)
Inductive SetArgument : Type :=
| ArgUndefined
| ArgNoLength
| ArgArray (value : list Q).

(** The guard of the setter; [new DeveloperError(...)] evaluates a name
    that is not bound. *)
Definition checkValue (value : SetArgument) : Js BatchTable (list Q) :=
  match value with
  | ArgUndefined => js_throw (ReferenceError "DeveloperError")
  | ArgNoLength => js_throw (ReferenceError "DeveloperError")
  | ArgArray v =>
      if ((Z.of_nat (length v) <? 1) || (Z.of_nat (length v) >? 4))%bool
      then js_throw (ReferenceError "DeveloperError")
      else js_ret v
  end.

(** [for (var i = firstInstanceIndex; i <= lastInstanceIndex; i++)]: one
    unit of fuel per iteration. *)
Fixpoint setLoop (fuel : nat) (i lastInstanceIndex : Z) (attributeIndex : nat)
    (value : list Q) : Js BatchTable unit :=
  match fuel with
  | O => js_ret tt
  | S fuel' =>
      if i <=? lastInstanceIndex then
        call attributeValue <- js_lift (getAttributeValue value);
        run js_modify (setBatchedAttribute i attributeIndex attributeValue);
        setLoop fuel' (i + 1) lastInstanceIndex attributeIndex value
      else js_ret tt
  end.

Definition createSetFunction
    (firstInstanceIndex lastInstanceIndex : Z) (attributeIndex : nat)
    (value : SetArgument) : Js BatchTable unit :=
  call v <- checkValue value;
  setLoop (Z.to_nat (lastInstanceIndex - firstInstanceIndex + 1))
          firstInstanceIndex lastInstanceIndex attributeIndex v.

Definition createGetFunction `{ComponentStorage}
    (instanceIndex : Z) (attributeIndex : nat)
    (batchTable : BatchTable) : completion (list Q) :=
  let attributeValue := getBatchedAttribute batchTable instanceIndex attributeIndex in
  match attributes batchTable !! attributeIndex with
  | None => Throw TypeError
  | Some attribute =>
      packStep (componentDatatype attribute) (componentsPerAttribute attribute)
               attributeValue
  end.

(** ** Geometry *)

(** The logical line handed to the primitive: its path, its width and its
    length on the ellipsoid, which the geometry carries as a property. *)
Record GroundPolylineGeometry : Type :=
  { positions : list (Q * Q);
    width : Q;
    lengthOnEllipsoid : Q }.

(** The result of [GroundPolylineGeometry.createWallVertices]: three parallel
    arrays. *)
Record WallVertices : Type :=
  { rightFacingNormals : list Q;
    bottomPositions : list Q;
    topPositions : list Q }.

(** The geometry modules the source calls and that are outside it
    ([GroundPolylineGeometry], [GroundLineGeometry], [GroundPrimitive]): an
    interface, a parameter of the development.  They are taken to return. *)
Class GroundGeometry : Type :=
  { GroundLineGeometry : Type;
    _defaultMaxTerrainHeight : Q;
    createWallVertices : GroundPolylineGeometry -> Q -> WallVertices;
    fromArrays : Z -> list Q -> list Q -> list Q -> GroundLineGeometry;
    segmentBottomLength : GroundLineGeometry -> Q }.

Record GeometryInstanceAttribute : Type :=
  { attributeComponentDatatype : ComponentDatatype;
    attributeComponentsPerAttribute : nat;
    normalize : bool;
    value : list Q }.

(** The attributes object of a segment: what [getAttributes] is given, and
    the [width] property that [decompose] adds to the object. *)
Record SegmentAttributes : Type :=
  { startDistance : Q;
    segmentLength : Q;
    totalLength : Q;
    widthAttribute : option GeometryInstanceAttribute }.

(** Modelled from the spec: [GroundLineGeometry.getAttributes] is outside the
    source.  The spec says a segment carries its start distance along the
    line, its own length and the total length of the line: the three
    numbers the call is given. *)
Definition getAttributes `{GroundGeometry} (geometry : GroundLineGeometry)
    (lengthSoFar segmentLength totalLength : Q) : SegmentAttributes :=
  {| startDistance := lengthSoFar;
     segmentLength := segmentLength;
     totalLength := totalLength;
     widthAttribute := None |}.

Definition setWidth (attributes : SegmentAttributes)
    (w : GeometryInstanceAttribute) : SegmentAttributes :=
  {| startDistance := startDistance attributes;
     segmentLength := segmentLength attributes;
     totalLength := totalLength attributes;
     widthAttribute := Some w |}.

(** A geometry instance, of a logical line ([A = unit]) or of a segment. *)
Record GeometryInstance (G A : Type) : Type :=
  { geometry : G;
    instanceAttributes : A;
    id : string }.

Arguments geometry {G A} _.
Arguments instanceAttributes {G A} _.
Arguments id {G A} _.

Definition PolylineInstance : Type := GeometryInstance GroundPolylineGeometry unit.

Definition SegmentInstance `{GroundGeometry} : Type :=
  GeometryInstance GroundLineGeometry SegmentAttributes.

(** ** decompose *)

Section Decompose.
Context `{GroundGeometry}.

(** The body of the loop of [decompose], for the window that starts at
    [i]: the segment instance pushed and the new [lengthSoFar]. *)
Definition decomposeStep (groundPolylineGeometry : GroundPolylineGeometry)
    (commonId : string) (wallVertices : WallVertices) (totalLength : Q)
    (i : Z) (lengthSoFar : Q) : SegmentInstance * Q :=
  let groundPolylineSegmentGeometry :=
    fromArrays i (rightFacingNormals wallVertices)
               (bottomPositions wallVertices) (topPositions wallVertices) in
  let segmentLength := segmentBottomLength groundPolylineSegmentGeometry in
  let attributes :=
    getAttributes groundPolylineSegmentGeometry lengthSoFar segmentLength totalLength in
  let lengthSoFar := (lengthSoFar + segmentLength)%Q in
  let attributes :=
    setWidth attributes
      {| attributeComponentDatatype := UNSIGNED_BYTE;
         attributeComponentsPerAttribute := 1;
         normalize := false;
         value := [width groundPolylineGeometry] |} in
  ({| geometry := groundPolylineSegmentGeometry;
      instanceAttributes := attributes;
      id := commonId |}, lengthSoFar).

(** [for (var i = 0; i < verticesLength - 3; i += 3)]: one unit of fuel per
    iteration. *)
Fixpoint decomposeLoop (fuel : nat)
    (groundPolylineGeometry : GroundPolylineGeometry) (commonId : string)
    (wallVertices : WallVertices) (totalLength : Q) (verticesLength : Z)
    (i : Z) (lengthSoFar : Q)
    (polylineSegmentInstances : list SegmentInstance) : list SegmentInstance :=
  match fuel with
  | O => polylineSegmentInstances
  | S fuel' =>
      if i <? verticesLength - 3 then
        let '(instance, lengthSoFar') :=
          decomposeStep groundPolylineGeometry commonId wallVertices totalLength
                        i lengthSoFar in
        decomposeLoop fuel' groundPolylineGeometry commonId wallVertices
                      totalLength verticesLength (i + 3) lengthSoFar'
                      (polylineSegmentInstances ++ [instance])
      else polylineSegmentInstances
  end.

(** [decompose(geometryInstance, polylineSegmentInstances,
    idsToInstanceIndices)]: the two mutated arguments are returned. *)
Definition decompose (geometryInstance : PolylineInstance)
    (polylineSegmentInstances : list SegmentInstance)
    (idsToInstanceIndices : gmap string (Z * Z))
    : list SegmentInstance * gmap string (Z * Z) :=
  let groundPolylineGeometry := geometry geometryInstance in
  let commonId := id geometryInstance in
  let wallVertices := createWallVertices groundPolylineGeometry _defaultMaxTerrainHeight in
  let totalLength := lengthOnEllipsoid groundPolylineGeometry in
  let verticesLength := length (rightFacingNormals wallVertices) in
  let segmentIndicesStart := Z.of_nat (length polylineSegmentInstances) in
  let polylineSegmentInstances :=
    decomposeLoop verticesLength groundPolylineGeometry commonId wallVertices
                  totalLength (Z.of_nat verticesLength) 0 0%Q
                  polylineSegmentInstances in
  (polylineSegmentInstances,
   <[commonId := (segmentIndicesStart,
                  Z.of_nat (length polylineSegmentInstances) - 1)]>
     idsToInstanceIndices).

(** The decomposition pass of [update]: every instance is decomposed in
    turn into the same array and the same index. *)
Definition decomposeAll (geometryInstances : list PolylineInstance)
    (idsToInstanceIndices : gmap string (Z * Z))
    : list SegmentInstance * gmap string (Z * Z) :=
  fold_left (fun acc geometryInstance =>
               decompose geometryInstance (fst acc) (snd acc))
            geometryInstances ([], idsToInstanceIndices).

End Decompose.

(** ** The synchronizer *)

(** [InstanceAttributeSynchronizer]: one property per own name of
    [batchTableAttributeIndices], whose getter is
    [createGetFunction(batchTable, firstInstanceIndex, attributeIndex)] and
    whose setter is [createSetFunction(batchTable, firstInstanceIndex,
    lastInstanceIndex, attributeIndex)].  The batch table is the shared
    object of the primitive; the accessors receive it explicitly. *)
Record InstanceAttributeSynchronizer : Type :=
  { firstInstanceIndex : Z;
    lastInstanceIndex : Z;
    properties : gmap string nat }.

Definition newInstanceAttributeSynchronizer
    (firstInstanceIndex lastInstanceIndex : Z)
    (batchTableAttributeIndices : gmap string nat) : InstanceAttributeSynchronizer :=
  {| firstInstanceIndex := firstInstanceIndex;
     lastInstanceIndex := lastInstanceIndex;
     properties := batchTableAttributeIndices |}.

(** Reading property [name]; a name that is no property reads as
    [undefined]. *)
Definition synchronizerGet `{ComponentStorage}
    (synchronizer : InstanceAttributeSynchronizer) (name : string)
    (batchTable : BatchTable) : completion (option (list Q)) :=
  match properties synchronizer !! name with
  | None => Normal None
  | Some attributeIndex =>
      match createGetFunction (firstInstanceIndex synchronizer) attributeIndex batchTable with
      | Normal v => Normal (Some v)
      | Throw e => Throw e
      end
  end.

(** Assigning property [name]; assigning a name that is no accessor does not
    reach the batch table. *)
Definition synchronizerSet
    (synchronizer : InstanceAttributeSynchronizer) (name : string)
    (value : SetArgument) : Js BatchTable unit :=
  match properties synchronizer !! name with
  | None => js_ret tt
  | Some attributeIndex =>
      createSetFunction (firstInstanceIndex synchronizer)
                        (lastInstanceIndex synchronizer) attributeIndex value
  end.

(** ** Plain objects used as maps *)

(** The names every plain object inherits from [Object.prototype]. *)
Definition objectPrototypeNames : list string :=
  ["constructor"; "hasOwnProperty"; "isPrototypeOf"; "propertyIsEnumerable";
   "toLocaleString"; "toString"; "valueOf"; "__proto__";
   "__defineGetter__"; "__defineSetter__"; "__lookupGetter__";
   "__lookupSetter__"]%string.

(** What [object[key]] reads on an object created as [{}]: a property of
    the object itself, a member of [Object.prototype], all of which are
    defined, or [undefined]. *)
Inductive Property (A : Type) : Type :=
| Own (a : A)
| Inherited (name : string)
| Absent.

Arguments Own {A} a.
Arguments Inherited {A} name.
Arguments Absent {A}.

Definition objectGet {A} (object : gmap string A) (key : string) : Property A :=
  match object !! key with
  | Some a => Own a
  | None => if decide (key ∈ objectPrototypeNames) then Inherited key else Absent
  end.

(** ** Appearance *)

(** The scene modules the primitive is written against and that are outside
    the source: frame states, materials and the material
    [Material.fromType('Color')]. *)
Class Scene : Type :=
  { FrameState : Type;
    Material : Type;
    colorMaterial : Material }.

Inductive ShaderSource : Type :=
| PolylineShadowVolumeVS
| PolylineShadowVolumeFS.

(** [MaterialAppearance.MaterialSupport]; the source names [BASIC]. *)
Inductive MaterialSupport : Type :=
| BASIC.

Record RenderState : Type :=
  { depthTestEnabled : bool }.

Definition getColorRenderState : RenderState :=
  {| depthTestEnabled := false |}.

(** Modelled from the spec: [Scene/MaterialAppearance] and
    [Renderer/RenderState] are outside the source.  An appearance is known
    by the options it is constructed from, a cached render state by its
    description. *)
Record MaterialAppearance `{Scene} : Type :=
  { flat : bool;
    translucent : bool;
    closed : bool;
    materialSupport : MaterialSupport;
    vertexShaderSource : ShaderSource;
    fragmentShaderSource : ShaderSource;
    material : Material;
    renderState : RenderState }.

Definition generatePolylineAppearance `{Scene} (material : Material) : MaterialAppearance :=
  {| flat := true;
     translucent := true;
     closed := false;
     materialSupport := BASIC;
     vertexShaderSource := PolylineShadowVolumeVS;
     fragmentShaderSource := PolylineShadowVolumeFS;
     material := material;
     renderState := getColorRenderState |}.

(** ** The primitive *)

Section Primitive.
Context `{Scene} `{GroundGeometry}.

(** [_primitiveOptions]. *)
Record PrimitiveOptions : Type :=
  { primitiveGeometryInstances : option (list SegmentInstance);
    primitiveAppearance : option MaterialAppearance;
    primitiveReleaseGeometryInstances : bool;
    primitiveAsynchronous : bool;
    fragmentLogDepth : bool }.

(** Modelled from the spec: [Scene/Primitive] is outside the source.  The
    rendering batch accepts the segment instances and an appearance, is
    shown unless told otherwise, and exposes the batch table and the
    attribute name to index mapping once it is built. *)
Record Primitive : Type :=
  { geometryInstances : option (list SegmentInstance);
    appearance : option MaterialAppearance;
    primitiveShow : bool;
    _batchTable : option BatchTable;
    _batchTableAttributeIndices : gmap string nat }.

Definition newPrimitive (options : PrimitiveOptions) : Primitive :=
  {| geometryInstances := primitiveGeometryInstances options;
     appearance := primitiveAppearance options;
     primitiveShow := true;
     _batchTable := None;
     _batchTableAttributeIndices := ∅ |}.

(** [Primitive.prototype.update], outside the source: known by the
    primitive it leaves. *)
Class Rendering : Type :=
  { primitiveUpdate : FrameState -> Primitive -> Primitive }.

Context `{Rendering}.

Record GroundPolylinePrimitive : Type :=
  { polylineGeometryInstances : option (PolylineInstance + list PolylineInstance);
    _material : Material;
    _appearance : MaterialAppearance;
    show : bool;
    releaseGeometryInstances : bool;
    asynchronous : bool;
    _primitiveOptions : PrimitiveOptions;
    _primitive : option Primitive;
    _ready : bool;
    _idsToInstanceIndices : gmap string (Z * Z);
    _attributeSynchronizerCache : gmap string InstanceAttributeSynchronizer }.

(** The options of the constructor, each of which may be left out. *)
Record Options : Type :=
  { polylineGeometryInstancesOption : option (PolylineInstance + list PolylineInstance);
    materialOption : option Material;
    showOption : option bool;
    releaseGeometryInstancesOption : option bool;
    asynchronousOption : option bool }.

(** [defaultValue.EMPTY_OBJECT] *)
Definition EMPTY_OBJECT : Options :=
  {| polylineGeometryInstancesOption := None;
     materialOption := None;
     showOption := None;
     releaseGeometryInstancesOption := None;
     asynchronousOption := None |}.

(** The constructor: the material defaults to the colour material, [show],
    [releaseGeometryInstances] and [asynchronous] to [true]; there is no
    inner primitive yet and both maps start empty. *)
Definition newGroundPolylinePrimitive (options : option Options) : GroundPolylinePrimitive :=
  let options := default EMPTY_OBJECT options in
  let material := default colorMaterial (materialOption options) in
  let releaseGeometryInstances := default true (releaseGeometryInstancesOption options) in
  let asynchronous := default true (asynchronousOption options) in
  {| polylineGeometryInstances := polylineGeometryInstancesOption options;
     _material := material;
     _appearance := generatePolylineAppearance material;
     show := default true (showOption options);
     releaseGeometryInstances := releaseGeometryInstances;
     asynchronous := asynchronous;
     _primitiveOptions :=
       {| primitiveGeometryInstances := None;
          primitiveAppearance := None;
          primitiveReleaseGeometryInstances := releaseGeometryInstances;
          primitiveAsynchronous := asynchronous;
          fragmentLogDepth := true |};
     _primitive := None;
     _ready := false;
     _idsToInstanceIndices := ∅;
     _attributeSynchronizerCache := ∅ |}.

(** Assignments to single fields of the primitive. *)
Definition setPrimitive (primitive : option Primitive)
    (this : GroundPolylinePrimitive) : GroundPolylinePrimitive :=
  {| polylineGeometryInstances := polylineGeometryInstances this;
     _material := _material this;
     _appearance := _appearance this;
     show := show this;
     releaseGeometryInstances := releaseGeometryInstances this;
     asynchronous := asynchronous this;
     _primitiveOptions := _primitiveOptions this;
     _primitive := primitive;
     _ready := _ready this;
     _idsToInstanceIndices := _idsToInstanceIndices this;
     _attributeSynchronizerCache := _attributeSynchronizerCache this |}.

Definition setPrimitiveOptions (primitiveOptions : PrimitiveOptions)
    (this : GroundPolylinePrimitive) : GroundPolylinePrimitive :=
  {| polylineGeometryInstances := polylineGeometryInstances this;
     _material := _material this;
     _appearance := _appearance this;
     show := show this;
     releaseGeometryInstances := releaseGeometryInstances this;
     asynchronous := asynchronous this;
     _primitiveOptions := primitiveOptions;
     _primitive := _primitive this;
     _ready := _ready this;
     _idsToInstanceIndices := _idsToInstanceIndices this;
     _attributeSynchronizerCache := _attributeSynchronizerCache this |}.

Definition setIdsToInstanceIndices (idsToInstanceIndices : gmap string (Z * Z))
    (this : GroundPolylinePrimitive) : GroundPolylinePrimitive :=
  {| polylineGeometryInstances := polylineGeometryInstances this;
     _material := _material this;
     _appearance := _appearance this;
     show := show this;
     releaseGeometryInstances := releaseGeometryInstances this;
     asynchronous := asynchronous this;
     _primitiveOptions := _primitiveOptions this;
     _primitive := _primitive this;
     _ready := _ready this;
     _idsToInstanceIndices := idsToInstanceIndices;
     _attributeSynchronizerCache := _attributeSynchronizerCache this |}.


(** [isArray(x) ? x : [x]] *)
Definition asArray (x : PolylineInstance + list PolylineInstance) : list PolylineInstance :=
  match x with
  | inl geometryInstance => [geometryInstance]
  | inr geometryInstances => geometryInstances
  end.

(** [primitive.appearance = appearance; primitive.show = show] *)
Definition withAppearanceAndShow (appearance : MaterialAppearance) (show : bool)
    (primitive : Primitive) : Primitive :=
  {| geometryInstances := geometryInstances primitive;
     appearance := Some appearance;
     primitiveShow := show;
     _batchTable := _batchTable primitive;
     _batchTableAttributeIndices := _batchTableAttributeIndices primitive |}.

(** The first part of [update], which runs while there is no inner
    primitive: every instance is decomposed into the index of the
    primitive, the segments and the appearance are stored in
    [_primitiveOptions], and the inner primitive is created from them.  The
    callback that is registered on the ready promise of the inner primitive
    runs after [update] has returned and is not part of the embedding. *)
Definition createPrimitive (instances : PolylineInstance + list PolylineInstance)
    (this : GroundPolylinePrimitive) : GroundPolylinePrimitive :=
  let '(polylineSegmentInstances, idsToInstanceIndices) :=
    decomposeAll (asArray instances) (_idsToInstanceIndices this) in
  let primitiveOptions :=
    {| primitiveGeometryInstances := Some polylineSegmentInstances;
       primitiveAppearance := Some (_appearance this);
       primitiveReleaseGeometryInstances :=
         primitiveReleaseGeometryInstances (_primitiveOptions this);
       primitiveAsynchronous := primitiveAsynchronous (_primitiveOptions this);
       fragmentLogDepth := fragmentLogDepth (_primitiveOptions this) |} in
  setPrimitive (Some (newPrimitive primitiveOptions))
    (setPrimitiveOptions primitiveOptions
       (setIdsToInstanceIndices idsToInstanceIndices this)).

(** [update]: nothing happens without inner primitive and without
    instances.  Otherwise the inner primitive is created if there is none,
    and on every call it is given the current appearance and [show] and
    its own [update] runs.  The last branch without inner primitive is
    never taken: the first part has created one. *)
Definition update (frameState : FrameState)
    (this : GroundPolylinePrimitive) : GroundPolylinePrimitive :=
  match _primitive this, polylineGeometryInstances this with
  | None, None => this
  | _, _ =>
      let this :=
        match _primitive this, polylineGeometryInstances this with
        | None, Some instances => createPrimitive instances this
        | _, _ => this
        end in
      match _primitive this with
      | None => this
      | Some primitive =>
          setPrimitive
            (Some (primitiveUpdate frameState
                     (withAppearanceAndShow (_appearance this) (show this) primitive)))
            this
      end
  end.

(** The inner primitive builds its batch table: the one step of the
    rendering batch that the attribute access depends on. *)
Definition batchBuilt (batchTable : BatchTable)
    (batchTableAttributeIndices : gmap string nat)
    (this : GroundPolylinePrimitive) : GroundPolylinePrimitive :=
  match _primitive this with
  | None => this
  | Some primitive =>
      setPrimitive
        (Some {| geometryInstances := geometryInstances primitive;
                 appearance := appearance primitive;
                 primitiveShow := primitiveShow primitive;
                 _batchTable := Some batchTable;
                 _batchTableAttributeIndices := batchTableAttributeIndices |})
        this
  end.

Definition cacheSynchronizer (id : string)
    (attributeSynchronizer : InstanceAttributeSynchronizer)
    (this : GroundPolylinePrimitive) : GroundPolylinePrimitive :=
  {| polylineGeometryInstances := polylineGeometryInstances this;
     _material := _material this;
     _appearance := _appearance this;
     show := show this;
     releaseGeometryInstances := releaseGeometryInstances this;
     asynchronous := asynchronous this;
     _primitiveOptions := _primitiveOptions this;
     _primitive := _primitive this;
     _ready := _ready this;
     _idsToInstanceIndices := _idsToInstanceIndices this;
     _attributeSynchronizerCache :=
       <[id := attributeSynchronizer]> (_attributeSynchronizerCache this) |}.

(** What [getGeometryInstanceAttributes] returns when it returns a defined
    value: a synchronizer, or, for an id that names a member of
    [Object.prototype] and that neither map owns, that member. *)
Inductive Attributes : Type :=
| Synchronizer (attributeSynchronizer : InstanceAttributeSynchronizer)
| PrototypeMember (name : string).

(** [getGeometryInstanceAttributes(id)]; [None] as argument or as result is
    [undefined].  Both guards construct a [DeveloperError], a name the
    module does not bind.  An id that the index inherits is inherited by
    the cache as well, unless the cache owns it, so that no synchronizer is
    constructed for it. *)
Definition getGeometryInstanceAttributes (id : option string)
    : Js GroundPolylinePrimitive (option Attributes) :=
  fun this =>
    match id with
    | None => (Throw (ReferenceError "DeveloperError"), this)
    | Some id =>
        match _primitive this with
        | None => (Throw (ReferenceError "DeveloperError"), this)
        | Some primitive =>
            match _batchTable primitive with
            | None => (Throw (ReferenceError "DeveloperError"), this)
            | Some batchTable =>
                match objectGet (_idsToInstanceIndices this) id with
                | Absent => (Normal None, this)
                | Inherited _ =>
                    match objectGet (_attributeSynchronizerCache this) id with
                    | Own attributeSynchronizer =>
                        (Normal (Some (Synchronizer attributeSynchronizer)), this)
                    | _ => (Normal (Some (PrototypeMember id)), this)
                    end
                | Own instanceIndices =>
                    match objectGet (_attributeSynchronizerCache this) id with
                    | Own attributeSynchronizer =>
                        (Normal (Some (Synchronizer attributeSynchronizer)), this)
                    | Inherited name =>
                        (Normal (Some (PrototypeMember name)), this)
                    | Absent =>
                        let attributeSynchronizer :=
                          newInstanceAttributeSynchronizer
                            (fst instanceIndices) (snd instanceIndices)
                            (_batchTableAttributeIndices primitive) in
                        (Normal (Some (Synchronizer attributeSynchronizer)),
                         cacheSynchronizer id attributeSynchronizer this)
                    end
                end
            end
        end
    end.

End Primitive.

(** ** Vocabulary of the statements *)

(** A setter argument that cannot be reduced to 1..4 numeric components. *)
Definition invalidArgument (value : SetArgument) : Prop :=
  match value with
  | ArgUndefined => True
  | ArgNoLength => True
  | ArgArray v => (length v < 1 \/ 4 < length v)%nat
  end.

(** The name that the decode of two to four components evaluates first. *)
Definition cartesianName (componentsPerAttribute : nat) : string :=
  match componentsPerAttribute with
  | 2%nat => "Cartesian2"
  | 3%nat => "Cartesian3"
  | _ => "Cartesian4"
  end.

(** What a setter writes when it writes: the argument is an array of one
    number, which is stored as it is. *)
Definition writtenValue (value : SetArgument) : option AttributeValue :=
  match value with
  | ArgArray [x] => Some (Scalar x)
  | _ => None
  end.

(** The number of components of an attribute value, 0 for [undefined]. *)
Definition arityOf (a : AttributeValue) : nat :=
  match a with
  | Undefined => 0
  | Scalar _ => 1
  | Cartesian2 _ _ => 2
  | Cartesian3 _ _ _ => 3
  | Cartesian4 _ _ _ _ => 4
  end.

(** Index [k] lies in the range [[first, last]]. *)
Definition inRange (k : Z) (range : Z * Z) : Prop :=
  fst range <= k <= snd range.

(** The window starts [i], [i + 3], ... of [n] iterations. *)
Fixpoint windowStarts (n : nat) (i : Z) : list Z :=
  match n with
  | O => []
  | S n' => i :: windowStarts n' (i + 3)
  end.

(** The number of iterations of the loop of [decompose] that are left when
    its counter is [i]. *)
Definition iterationsFrom (verticesLength i : Z) : nat :=
  Z.to_nat ((verticesLength - 3 - i + 2) / 3).

Section LineSegments.
Context `{GroundGeometry}.

(** The segments of the windows [starts], the first of which begins at
    distance [lengthSoFar]. *)
Fixpoint segmentsFrom (groundPolylineGeometry : GroundPolylineGeometry)
    (commonId : string) (wallVertices : WallVertices) (totalLength : Q)
    (starts : list Z) (lengthSoFar : Q) : list SegmentInstance :=
  match starts with
  | [] => []
  | i :: starts' =>
      let step := decomposeStep groundPolylineGeometry commonId wallVertices
                                totalLength i lengthSoFar in
      fst step :: segmentsFrom groundPolylineGeometry commonId wallVertices
                               totalLength starts' (snd step)
  end.

Definition wallOf (geometryInstance : PolylineInstance) : WallVertices :=
  createWallVertices (geometry geometryInstance) _defaultMaxTerrainHeight.

(** [verticesLength] of [decompose]. *)
Definition verticesLengthOf (geometryInstance : PolylineInstance) : Z :=
  Z.of_nat (length (rightFacingNormals (wallOf geometryInstance))).

(** The segments of one logical line, in the order of the loop. *)
Definition lineSegments (geometryInstance : PolylineInstance) : list SegmentInstance :=
  segmentsFrom (geometry geometryInstance) (id geometryInstance)
               (wallOf geometryInstance)
               (lengthOnEllipsoid (geometry geometryInstance))
               (windowStarts (iterationsFrom (verticesLengthOf geometryInstance) 0) 0)
               0%Q.

(** The loop of the decomposition pass, from any state of the output array
    and of the index. *)
Definition pass (geometryInstances : list PolylineInstance)
    (acc : list SegmentInstance * gmap string (Z * Z))
    : list SegmentInstance * gmap string (Z * Z) :=
  fold_left (fun acc geometryInstance => decompose geometryInstance (fst acc) (snd acc))
            geometryInstances acc.

(** The invariant of the pass: ranges lie in the output array, start at most
    one past their end, and ranges of distinct ids share no index. *)
Definition rangesOk (acc : list SegmentInstance * gmap string (Z * Z)) : Prop :=
  (forall i first last, snd acc !! i = Some (first, last) ->
     0 <= first /\ first <= last + 1 /\ last < Z.of_nat (length (fst acc))) /\
  (forall i1 i2 r1 r2, i1 <> i2 ->
     snd acc !! i1 = Some r1 -> snd acc !! i2 = Some r2 ->
     forall k, ~ (inRange k r1 /\ inRange k r2)).

End LineSegments.

Section Built.
Context `{Rendering}.

(** The options that give a batch of lines and nothing else. *)
Definition batchOptions (geometryInstances : list PolylineInstance) : Options :=
  {| polylineGeometryInstancesOption := Some (inr geometryInstances);
     materialOption := None;
     showOption := None;
     releaseGeometryInstancesOption := None;
     asynchronousOption := None |}.

(** A primitive created on a batch of lines, updated once, whose batch
    table has then been built. *)
Definition builtPrimitive (frameState : FrameState)
    (geometryInstances : list PolylineInstance)
    (batchTable : BatchTable) (batchTableAttributeIndices : gmap string nat)
    : GroundPolylinePrimitive :=
  batchBuilt batchTable batchTableAttributeIndices
             (update frameState
                (newGroundPolylinePrimitive (Some (batchOptions geometryInstances)))).

End Built.


(** ** Instances used by the examples *)

(** Typed arrays of integers truncate and wrap; floating point arrays keep
    the number (rounding is not modelled). *)
Definition truncate (x : Q) : Z := Z.quot (Qnum x) (Zpos (Qden x)).

Definition toUnsigned (bits : Z) (x : Q) : Q :=
  inject_Z (truncate x mod 2 ^ bits).

Definition toSigned (bits : Z) (x : Q) : Q :=
  inject_Z ((truncate x + 2 ^ (bits - 1)) mod 2 ^ bits - 2 ^ (bits - 1)).

Definition typedArrays : ComponentStorage :=
  {| toComponent dt x :=
       match dt with
       | BYTE => toSigned 8 x
       | UNSIGNED_BYTE => toUnsigned 8 x
       | SHORT => toSigned 16 x
       | UNSIGNED_SHORT => toUnsigned 16 x
       | INT => toSigned 32 x
       | UNSIGNED_INT => toUnsigned 32 x
       | FLOAT => x
       | DOUBLE => x
       end |}.

(** Geometry modules for the examples: three entries per position of the
    path, a segment is known by the start of its window and has length 1. *)
Definition unitSegments : GroundGeometry :=
  {| GroundLineGeometry := Z;
     _defaultMaxTerrainHeight := 9000%Q;
     createWallVertices g _ :=
       let packed := flat_map (fun p => [fst p; snd p; 0%Q]) (positions g) in
       {| rightFacingNormals := packed;
          bottomPositions := packed;
          topPositions := packed |};
     fromArrays i _ _ _ := i;
     segmentBottomLength _ := 1%Q |}.

Definition line (name : string) (path : list (Q * Q)) (w total : Q) : PolylineInstance :=
  {| geometry := {| positions := path; width := w; lengthOnEllipsoid := total |};
     instanceAttributes := tt;
     id := name |}.

Definition path1 : list (Q * Q) := [(0, 0)%Q].
Definition path2 : list (Q * Q) := [(0, 0)%Q; (1, 0)%Q].
Definition path3 : list (Q * Q) := [(0, 0)%Q; (1, 0)%Q; (2, 0)%Q].

(** A batch table with one attribute, a colour of four unsigned bytes, white
    on the first two instances. *)
Definition white : AttributeValue := Cartesian4 255 255 255 255.

Definition colourTable : BatchTable :=
  {| attributes := [{| componentDatatype := UNSIGNED_BYTE; componentsPerAttribute := 4 |}];
     batchValues := <[(1, 0%nat) := white]> (<[(0, 0%nat) := white]> ∅) |}.

Definition colourIndices : gmap string nat := {[ "color"%string := 0%nat ]}.

(** A batch table of four instances with two attributes, a colour of four
    unsigned bytes and a width of one, white and of width 2 everywhere. *)
Definition widthTable : BatchTable :=
  {| attributes := [{| componentDatatype := UNSIGNED_BYTE; componentsPerAttribute := 4 |};
                    {| componentDatatype := UNSIGNED_BYTE; componentsPerAttribute := 1 |}];
     batchValues :=
       list_to_map
         (flat_map (fun i : Z => [((i, 0%nat), white); ((i, 1%nat), Scalar 2)])
                   [0; 1; 2; 3]) |}.

Definition widthIndices : gmap string nat :=
  {[ "color"%string := 0%nat; "width"%string := 1%nat ]}.

(** A scene for the examples: a material is its name, a frame state is a
    frame number, and the update of the inner primitive leaves it as it
    is. *)
Definition plainScene : Scene :=
  {| FrameState := nat; Material := string; colorMaterial := "Color"%string |}.

(** Batches for the examples.  A path of one position gives three wall
    entries, one of three positions gives nine. *)
Definition emptyFirst : list PolylineInstance :=
  [line "b" path1 2 0; line "a" path3 2 5].

Definition emptyLast : list PolylineInstance :=
  [line "a" path3 2 5; line "b" path1 2 0].

Definition unchecked : list PolylineInstance :=
  [line "bad" path3 (-1) 2; line "short" path1 2 0; line "good" path3 2 2].

Definition repeated : list PolylineInstance :=
  [line "a" path3 2 5; line "b" path2 1 1; line "a" path2 3 1].


Definition emptyThenFull : list PolylineInstance :=
  [line "b" path1 2 0; line "b" path3 2 5].

(** The components of an attribute value, in the order of [pack]. *)
Definition componentsOf (a : AttributeValue) : list Q :=
  match a with
  | Undefined => []
  | Scalar x => [x]
  | Cartesian2 x y => [x; y]
  | Cartesian3 x y z => [x; y; z]
  | Cartesian4 x y z w => [x; y; z; w]
  end.

Section Assignment.
Context `{Rendering}.

(** [primitive.polylineGeometryInstances = x], the public property. *)
Definition setPolylineGeometryInstances
    (x : option (PolylineInstance + list PolylineInstance))
    (this : GroundPolylinePrimitive) : GroundPolylinePrimitive :=
  {| polylineGeometryInstances := x;
     _material := _material this;
     _appearance := _appearance this;
     show := show this;
     releaseGeometryInstances := releaseGeometryInstances this;
     asynchronous := asynchronous this;
     _primitiveOptions := _primitiveOptions this;
     _primitive := _primitive this;
     _ready := _ready this;
     _idsToInstanceIndices := _idsToInstanceIndices this;
     _attributeSynchronizerCache := _attributeSynchronizerCache this |}.

(** [primitive.show = x], the public property. *)
Definition setShow (x : bool)
    (this : GroundPolylinePrimitive) : GroundPolylinePrimitive :=
  {| polylineGeometryInstances := polylineGeometryInstances this;
     _material := _material this;
     _appearance := _appearance this;
     show := x;
     releaseGeometryInstances := releaseGeometryInstances this;
     asynchronous := asynchronous this;
     _primitiveOptions := _primitiveOptions this;
     _primitive := _primitive this;
     _ready := _ready this;
     _idsToInstanceIndices := _idsToInstanceIndices this;
     _attributeSynchronizerCache := _attributeSynchronizerCache this |}.

End Assignment.

Definition plainRendering : @Rendering plainScene unitSegments :=
  {| primitiveUpdate := fun _ primitive => primitive |}.

(** The primitive of the examples, built on a batch at frame 0. *)
Definition exampleBuilt (geometryInstances : list PolylineInstance)
    (batchTable : BatchTable) (batchTableAttributeIndices : gmap string nat)
    : @GroundPolylinePrimitive plainScene unitSegments :=
  @builtPrimitive plainScene unitSegments plainRendering 0%nat
                  geometryInstances batchTable batchTableAttributeIndices.

(** A string is none of the strings of a list of literals. *)
Ltac not_among :=
  let Hin := fresh "Hin" in
  intros Hin;
  repeat (apply elem_of_cons in Hin as [Hin|Hin]; [discriminate Hin|]);
  apply elem_of_nil in Hin; exact Hin.

(** ** PointCloudStream

    Shallow embedding of the second module of the source: a stream of point
    cloud frames, one of which is selected by [index] and updated. *)

Module PointCloudStream.

(** Modelled from the spec: [Scene/SceneMode] is outside the source, which
    names [MORPHING] only. *)
Inductive SceneMode : Type :=
| MORPHING | COLUMBUS_VIEW | SCENE2D | SCENE3D.

(** The values the stream passes on without looking into them. *)
Class Carriers : Type :=
  { Style : Type;
    Matrix4 : Type;
    ShadowMode : Type;
    ArrayBuffer : Type;
    PickId : Type;
    Command : Type;
    JulianDate : Type;
    EyeDomeLighting : Type }.

(** The fields of [PointCloudShading] that [update] reads. *)
Record PointCloudShading : Type :=
  { attenuation : bool;
    eyeDomeLighting : bool;
    geometricErrorScale : Q;
    maximumAttenuation : option Q }.

(** The fields of a [ClippingPlaneCollection] that [update] reads. *)
Record ClippingPlaneCollection : Type :=
  { enabled : bool;
    clippingPlanesState : Z }.

Module Frame.

(** What [update] assigns to the selected frame. *)
Record Parameters `{Carriers} : Type :=
  { style : Style;
    modelMatrix : Matrix4;
    time : Q;
    shadows : ShadowMode;
    clippingPlanes : option ClippingPlaneCollection;
    isClipped : bool;
    clippingPlanesDirty : bool;
    attenuation : bool;
    geometricError : Q;
    geometricErrorScale : Q;
    maximumAttenuation : Q }.

(** A frame, the [PointCloud] that [addFrame] creates: its buffer, and the
    parameters last assigned by [update], [None] as long as the frame is as
    constructed.  The state a frame keeps for itself is outside the model. *)
Record t `{Carriers} : Type :=
  { arrayBuffer : ArrayBuffer;
    parameters : option Parameters }.

End Frame.

Section Stream.
Context `{Carriers}.

Record FrameState : Type :=
  { mode : SceneMode;
    time : JulianDate;
    commandList : list Command }.

(** The modules the stream calls and that are outside the source: an
    interface.  A frame's [update] and the eye dome lighting's [update] are
    known by the frame state they leave, the clipping planes' [update] by the
    collection it leaves. *)
Class Collaborators : Type :=
  { shadowModeEnabled : ShadowMode;
    matrix4Identity : Matrix4;
    newPointCloudEyeDomeLighting : EyeDomeLighting;
    secondsDifference : JulianDate -> JulianDate -> Q;
    createPickId : FrameState -> PickId;
    clippingPlanesUpdate : ClippingPlaneCollection -> FrameState -> ClippingPlaneCollection;
    pointCloudUpdate : Frame.t -> FrameState -> FrameState;
    eyeDomeLightingUpdate :
      EyeDomeLighting -> FrameState -> nat -> PointCloudShading ->
      EyeDomeLighting * FrameState }.

Record Stream : Type :=
  { pointCloudShading : PointCloudShading;
    style : Style;
    clippingPlanes : option ClippingPlaneCollection;
    shadows : ShadowMode;
    modelMatrix : Matrix4;
    show : bool;
    index : Z;
    _pointCloudEyeDomeLighting : EyeDomeLighting;
    _loadTimestamp : option JulianDate;
    _clippingPlanesState : Z;
    _pickId : option PickId;
    _frames : list (option Frame.t) }.

(** [array[i] = x] on an array that may have holes: in range the element is
    replaced, out of range the array grows, with holes up to [i]. *)
Definition arraySet {A : Type} (array : list (option A)) (i : nat) (x : A)
    : list (option A) :=
  if (i <? length array)%nat then <[i := Some x]> array
  else array ++ replicate (i - length array) None ++ [Some x].

(** [array[index]] for a number [index]: [None] is [undefined]. *)
Definition arrayGet {A : Type} (array : list (option A)) (index : Z) : option A :=
  if index <? 0 then None else mjoin (array !! Z.to_nat index).

(** [this._frames = frames] *)
Definition setFrames (frames : list (option Frame.t)) (this : Stream) : Stream :=
  {| pointCloudShading := pointCloudShading this;
     style := style this;
     clippingPlanes := clippingPlanes this;
     shadows := shadows this;
     modelMatrix := modelMatrix this;
     show := show this;
     index := index this;
     _pointCloudEyeDomeLighting := _pointCloudEyeDomeLighting this;
     _loadTimestamp := _loadTimestamp this;
     _clippingPlanesState := _clippingPlanesState this;
     _pickId := _pickId this;
     _frames := frames |}.

(** [stream.index = x], the public property. *)
Definition setIndex (x : Z) (this : Stream) : Stream :=
  {| pointCloudShading := pointCloudShading this;
     style := style this;
     clippingPlanes := clippingPlanes this;
     shadows := shadows this;
     modelMatrix := modelMatrix this;
     show := show this;
     index := x;
     _pointCloudEyeDomeLighting := _pointCloudEyeDomeLighting this;
     _loadTimestamp := _loadTimestamp this;
     _clippingPlanesState := _clippingPlanesState this;
     _pickId := _pickId this;
     _frames := _frames this |}.

(** [addFrame(index, arrayBuffer)], for an array index. *)
Definition addFrame (index : nat) (arrayBuffer : ArrayBuffer) (this : Stream) : Stream :=
  setFrames (arraySet (_frames this) index
               {| Frame.arrayBuffer := arrayBuffer; Frame.parameters := None |})
            this.

(** [Math.max(x, y)] *)
Definition mathMax (x y : Q) : Q := if Qle_bool x y then y else x.

Section Update.
Context `{Collaborators}.

(** [update(frameState)]: the stream and the frame state it leaves. *)
Definition update (frameState : FrameState) (this : Stream) : Stream * FrameState :=
  match mode frameState with
  | MORPHING => (this, frameState)
  | _ =>
    if negb (show this) then (this, frameState) else
    let frames := _frames this in
    let framesLength := length frames in
    if Nat.eqb framesLength 0 then (this, frameState) else
    let index := index this in
    if ((index <? 0) || (index >? Z.of_nat framesLength))%bool then (this, frameState) else
    match arrayGet frames index with
    | None => (this, frameState)
    | Some frame =>
      let pickId :=
        match _pickId this with
        | Some pickId => pickId
        | None => createPickId frameState
        end in
      let loadTimestamp :=
        match _loadTimestamp this with
        | Some loadTimestamp => loadTimestamp
        | None => time frameState
        end in
      let timeSinceLoad :=
        mathMax (secondsDifference (time frameState) loadTimestamp * 1000)%Q 0%Q in
      let isClipped :=
        match clippingPlanes this with
        | Some planes => enabled planes
        | None => false
        end in
      let clippingPlanes :=
        if isClipped
        then option_map (fun planes => clippingPlanesUpdate planes frameState)
                        (clippingPlanes this)
        else clippingPlanes this in
      let clippingPlanesState :=
        if isClipped
        then match clippingPlanes with
             | Some planes => clippingPlanesState planes
             | None => 0
             end
        else 0 in
      let clippingPlanesDirty := negb (_clippingPlanesState this =? clippingPlanesState) in
      let lengthBeforeUpdate := length (commandList frameState) in
      let frame :=
        {| Frame.arrayBuffer := Frame.arrayBuffer frame;
           Frame.parameters :=
             Some {| Frame.style := style this;
                     Frame.modelMatrix := modelMatrix this;
                     Frame.time := timeSinceLoad;
                     Frame.shadows := shadows this;
                     Frame.clippingPlanes := clippingPlanes;
                     Frame.isClipped := isClipped;
                     Frame.clippingPlanesDirty := clippingPlanesDirty;
                     Frame.attenuation := attenuation (pointCloudShading this);
                     Frame.geometricError := 0%Q;
                     Frame.geometricErrorScale :=
                       geometricErrorScale (pointCloudShading this);
                     Frame.maximumAttenuation :=
                       match maximumAttenuation (pointCloudShading this) with
                       | Some m => m
                       | None => 10%Q
                       end |} |} in
      let frameState := pointCloudUpdate frame frameState in
      let lengthAfterUpdate := length (commandList frameState) in
      let addedCommandsLength := Z.of_nat lengthAfterUpdate - Z.of_nat lengthBeforeUpdate in
      let '(eyeDomeLighting', frameState) :=
        if (attenuation (pointCloudShading this)
            && eyeDomeLighting (pointCloudShading this)
            && (addedCommandsLength >? 0))%bool
        then eyeDomeLightingUpdate (_pointCloudEyeDomeLighting this) frameState
                                   lengthBeforeUpdate (pointCloudShading this)
        else (_pointCloudEyeDomeLighting this, frameState) in
      ({| pointCloudShading := pointCloudShading this;
          style := style this;
          clippingPlanes := clippingPlanes;
          shadows := shadows this;
          modelMatrix := modelMatrix this;
          show := show this;
          index := index;
          _pointCloudEyeDomeLighting := eyeDomeLighting';
          _loadTimestamp := Some loadTimestamp;
          _clippingPlanesState := clippingPlanesState;
          _pickId := Some pickId;
          _frames := <[Z.to_nat index := Some frame]> frames |}, frameState)
    end
  end.

(** The constructor, given the shading it builds from its options, the
    style, the clipping planes and the shadow mode of the options, the last
    of which defaults to [ShadowMode.ENABLED]. *)
Definition newStream (shading : PointCloudShading) (style : Style)
    (clippingPlanes : option ClippingPlaneCollection)
    (shadows : option ShadowMode) : Stream :=
  {| pointCloudShading := shading;
     style := style;
     clippingPlanes := clippingPlanes;
     shadows := default shadowModeEnabled shadows;
     modelMatrix := matrix4Identity;
     show := true;
     index := 0;
     _pointCloudEyeDomeLighting := newPointCloudEyeDomeLighting;
     _loadTimestamp := None;
     _clippingPlanesState := 0;
     _pickId := None;
     _frames := [] |}.

(** A run of updates, one per frame state, on the stream alone. *)
Definition updates (frameStates : list FrameState) (this : Stream) : Stream :=
  fold_left (fun stream frameState => fst (update frameState stream)) frameStates this.

End Update.
End Stream.

(** Instances for the examples: buffers, pick ids and commands are numbers,
    a date is a number of seconds, a frame appends its buffer as a command
    and the eye dome lighting counts its updates. *)
Definition numbers : Carriers :=
  {| Style := unit; Matrix4 := unit; ShadowMode := bool; ArrayBuffer := nat;
     PickId := nat; Command := nat; JulianDate := Q; EyeDomeLighting := nat |}.

Definition counting : @Collaborators numbers :=
  @Build_Collaborators numbers
    true tt O
    (fun left right : Q => (left - right)%Q)
    (fun _ => 7%nat)
    (fun planes _ => planes)
    (fun frame frameState =>
       {| mode := mode frameState;
          time := time frameState;
          commandList := commandList frameState ++ [Frame.arrayBuffer frame] |})
    (fun lighting frameState _ _ => (S lighting, frameState)).

(** Collaborators whose frames add no command. *)
Definition silent : @Collaborators numbers :=
  @Build_Collaborators numbers
    true tt O
    (fun left right : Q => (left - right)%Q)
    (fun _ => 7%nat)
    (fun planes _ => planes)
    (fun _ frameState => frameState)
    (fun lighting frameState _ _ => (S lighting, frameState)).

Definition litShading : PointCloudShading :=
  {| attenuation := true; eyeDomeLighting := true;
     geometricErrorScale := 1; maximumAttenuation := None |}.

Definition litFrame : @Stream numbers :=
  @addFrame numbers 0 5%nat (@newStream numbers silent litShading tt None None).

Definition plainShading : PointCloudShading :=
  {| attenuation := false; eyeDomeLighting := false;
     geometricErrorScale := 1; maximumAttenuation := None |}.

Definition oneFrame : @Stream numbers :=
  @addFrame numbers 0 5%nat (@newStream numbers counting plainShading tt None None).

Definition at3D (seconds : Q) : @FrameState numbers :=
  @Build_FrameState numbers SCENE3D seconds [].

End PointCloudStream.

(** * Properties *)

(** ** The codec *)

Lemma getAttributeValue_scalar (x : Q) :
  getAttributeValue [x] = Normal (Scalar x).
Proof. reflexivity. Qed.

Lemma getAttributeValue_outside (value : list Q) :
  (length value < 1 \/ 4 < length value)%nat ->
  getAttributeValue value = Normal Undefined.
Proof.
  destruct value as [|x [|y [|z [|w [|u rest]]]]]; simpl; intros Hlen;
    try lia; reflexivity.
Qed.

Lemma getAttributeValue_vector (value : list Q) :
  (2 <= length value <= 4)%nat ->
  getAttributeValue value = Throw (ReferenceError (cartesianName (length value))).
Proof.
  destruct value as [|x [|y [|z [|w [|u rest]]]]]; simpl; intros Hlen;
    try lia; reflexivity.
Qed.

(** C6, as the code has it: a buffer of one component is decoded to that
    number, whatever the number is; a buffer whose length is outside 1..4 is
    decoded to [undefined] and no error is raised. *)
Theorem getAttributeValue_by_length :
  (forall x : Q, getAttributeValue [x] = Normal (Scalar x)) /\
  (forall value : list Q,
     (length value < 1 \/ 4 < length value)%nat ->
     getAttributeValue value = Normal Undefined /\
     forall e, getAttributeValue value <> Throw e).
Proof.
  split.
  - exact getAttributeValue_scalar.
  - intros value Hlen. rewrite (getAttributeValue_outside value Hlen).
    split; [reflexivity | discriminate].
Qed.

(** C6, counterexample: on the empty buffer and on a buffer of five
    components, both of a length outside 1..4, the decode returns
    [undefined]; it throws no error. *)
Lemma getAttributeValue_unsupported_arity_returns :
  (length (@nil Q) < 1)%nat /\ (4 < length [1; 2; 3; 4; 5]%Q)%nat /\
  getAttributeValue [] = Normal Undefined /\
  getAttributeValue [1; 2; 3; 4; 5]%Q = Normal Undefined /\
  ~ (exists e, getAttributeValue [] = Throw e) /\
  ~ (exists e, getAttributeValue [1; 2; 3; 4; 5]%Q = Throw e).
Proof.
  repeat split; simpl; try lia; intros [e He]; discriminate.
Qed.

(** C8, where the code departs from it: the decode of a buffer of 2, 3 or 4
    components raises a ReferenceError for the name of the Cartesian it
    would unpack into, and so returns no value that could be packed
    again. *)
Theorem decode_of_vector_raises (v : list Q) :
  (2 <= length v <= 4)%nat ->
  getAttributeValue v = Throw (ReferenceError (cartesianName (length v))) /\
  forall a, getAttributeValue v <> Normal a.
Proof.
  intros Hlen. rewrite (getAttributeValue_vector v Hlen).
  split; [reflexivity | discriminate].
Qed.

(** The decode of a colour of four components. *)
Lemma decode_of_vector_raises_witness :
  (2 <= length [255; 0; 0; 255]%Q <= 4)%nat /\
  getAttributeValue [255; 0; 0; 255]%Q = Throw (ReferenceError "Cartesian4") /\
  forall a, getAttributeValue [255; 0; 0; 255]%Q <> Normal a.
Proof.
  split; [simpl; lia|].
  apply (decode_of_vector_raises [255; 0; 0; 255]%Q). simpl. lia.
Defined.

Lemma typedArrayStore_representable `{ComponentStorage} dt i x array :
  representable dt x -> typedArrayStore dt i x array = <[i := x]> array.
Proof. unfold representable, typedArrayStore. intros ->. reflexivity. Qed.

(** Packing a number into a typed array of one element gives back the
    number, when it is stored unchanged. *)
Lemma packStep_scalar `{ComponentStorage} (dt : ComponentDatatype) (x : Q) :
  representable dt x -> packStep dt 1 (Scalar x) = Normal [x].
Proof.
  intros Hrep. unfold packStep, createTypedArray.
  rewrite typedArrayStore_representable by exact Hrep. reflexivity.
Qed.

Lemma createGetFunction_stored `{ComponentStorage}
    (i : Z) (k : nat) (attribute : BatchAttribute) (a : AttributeValue)
    (batchTable : BatchTable) :
  attributes batchTable !! k = Some attribute ->
  batchValues batchTable !! (i, k) = Some a ->
  createGetFunction i k batchTable
    = packStep (componentDatatype attribute) (componentsPerAttribute attribute) a.
Proof.
  intros Hattr Hval. unfold createGetFunction, getBatchedAttribute.
  rewrite Hattr, Hval. reflexivity.
Qed.

(** The round trip of one component: a number that the datatype of an
    attribute stores unchanged is decoded to itself, packing the decoded
    value into a typed array of one element gives back the number, and so
    does the getter on any batch table whose slot holds the decoded value,
    for an attribute declared with that datatype and one component. *)
Theorem scalar_decode_pack_roundtrip `{ComponentStorage}
    (dt : ComponentDatatype) (x : Q) :
  representable dt x ->
  getAttributeValue [x] = Normal (Scalar x) /\
  packStep dt 1 (Scalar x) = Normal [x] /\
  forall (batchTable : BatchTable) (i : Z) (k : nat),
    attributes batchTable !! k
      = Some {| componentDatatype := dt; componentsPerAttribute := 1 |} ->
    batchValues batchTable !! (i, k) = Some (Scalar x) ->
    createGetFunction i k batchTable = Normal [x].
Proof.
  intros Hrep. split; [reflexivity|]. split; [exact (packStep_scalar dt x Hrep)|].
  intros batchTable i k Hattr Hval.
  rewrite (createGetFunction_stored i k _ (Scalar x) batchTable Hattr Hval).
  exact (packStep_scalar dt x Hrep).
Qed.

(** The round trip of the unsigned byte 200. *)
Lemma scalar_decode_pack_roundtrip_witness :
  @representable typedArrays UNSIGNED_BYTE 200 /\
  getAttributeValue [200%Q] = Normal (Scalar 200) /\
  @packStep typedArrays UNSIGNED_BYTE 1 (Scalar 200) = Normal [200%Q] /\
  forall (batchTable : BatchTable) (i : Z) (k : nat),
    attributes batchTable !! k
      = Some {| componentDatatype := UNSIGNED_BYTE; componentsPerAttribute := 1 |} ->
    batchValues batchTable !! (i, k) = Some (Scalar 200) ->
    @createGetFunction typedArrays i k batchTable = Normal [200%Q].
Proof.
  split; [reflexivity|].
  apply (@scalar_decode_pack_roundtrip typedArrays UNSIGNED_BYTE 200%Q). reflexivity.
Defined.

(** ** The setter *)

Lemma checkValue_invalid (value : SetArgument) (batchTable : BatchTable) :
  invalidArgument value ->
  checkValue value batchTable = (Throw (ReferenceError "DeveloperError"), batchTable).
Proof.
  destruct value as [| |v]; simpl; try reflexivity.
  intros Hlen.
  destruct (Z.ltb_spec (Z.of_nat (length v)) 1) as [Hlt|Hge]; simpl; [reflexivity|].
  destruct (Z.gtb_spec (Z.of_nat (length v)) 4) as [Hgt|Hle]; [reflexivity|lia].
Qed.

Lemma checkValue_valid (v : list Q) (batchTable : BatchTable) :
  (1 <= length v <= 4)%nat ->
  checkValue (ArgArray v) batchTable = (Normal v, batchTable).
Proof.
  intros Hlen. simpl.
  destruct (Z.ltb_spec (Z.of_nat (length v)) 1) as [Hlt|Hge]; [lia|].
  destruct (Z.gtb_spec (Z.of_nat (length v)) 4) as [Hgt|Hle]; [lia|reflexivity].
Qed.

(** The loop of the setter on a value whose decode returns, with fuel for
    every index that is left: it returns, the slots [(j, attributeIndex)]
    with [i <= j <= last] hold the decoded value and every other slot is as
    before. *)
Lemma setLoop_spec (a : AttributeValue) (attributeIndex : nat) (v : list Q)
    (lastInstanceIndex : Z) (fuel : nat) :
  getAttributeValue v = Normal a ->
  forall (i : Z) (batchTable : BatchTable),
    lastInstanceIndex - i + 1 <= Z.of_nat fuel ->
    exists batchTable',
      setLoop fuel i lastInstanceIndex attributeIndex v batchTable
        = (Normal tt, batchTable') /\
      attributes batchTable' = attributes batchTable /\
      (forall j, i <= j <= lastInstanceIndex ->
         batchValues batchTable' !! (j, attributeIndex) = Some a) /\
      (forall j k, ~ (i <= j <= lastInstanceIndex /\ k = attributeIndex) ->
         batchValues batchTable' !! (j, k) = batchValues batchTable !! (j, k)).
Proof.
  intros Ha. induction fuel as [|fuel IH]; intros i batchTable Hfuel.
  - exists batchTable. simpl. repeat split; try reflexivity. intros j Hj. lia.
  - simpl. destruct (Z.leb_spec i lastInstanceIndex) as [Hle|Hgt].
    + unfold js_bind at 1. unfold js_lift. rewrite Ha.
      unfold js_bind at 1. unfold js_modify.
      destruct (IH (i + 1) (setBatchedAttribute i attributeIndex a batchTable))
        as (bt' & Hrun & Hattrs & Hin & Hout); [lia|].
      exists bt'. split; [exact Hrun|]. split; [rewrite Hattrs; reflexivity|]. split.
      * intros j Hj. destruct (decide (j = i)) as [->|Hne].
        -- rewrite Hout by lia. simpl. apply lookup_insert_eq.
        -- apply Hin. lia.
      * intros j k Hjk. rewrite Hout by lia. simpl.
        apply lookup_insert_ne. intros Heq. inversion Heq; subst. lia.
    + exists batchTable. repeat split; try reflexivity. intros j Hj. lia.
Qed.

(** The loop of the setter on a value whose decode raises an error: the
    first iteration raises it before it writes. *)
Lemma setLoop_raises (e : Error) (attributeIndex : nat) (v : list Q)
    (i lastInstanceIndex : Z) (fuel : nat) (batchTable : BatchTable) :
  getAttributeValue v = Throw e ->
  i <= lastInstanceIndex -> (0 < fuel)%nat ->
  setLoop fuel i lastInstanceIndex attributeIndex v batchTable = (Throw e, batchTable).
Proof.
  intros He Hle Hfuel. destruct fuel as [|fuel]; [lia|]. simpl.
  destruct (Z.leb_spec i lastInstanceIndex) as [_|Hgt]; [|lia].
  unfold js_bind at 1. unfold js_lift. rewrite He. reflexivity.
Qed.

(** On an empty range the setter writes nothing. *)
Lemma createSetFunction_empty_range (first last : Z) (attributeIndex : nat)
    (v : list Q) (batchTable : BatchTable) :
  last < first -> (1 <= length v <= 4)%nat ->
  createSetFunction first last attributeIndex (ArgArray v) batchTable
    = (Normal tt, batchTable).
Proof.
  intros Hempty Hlen. unfold createSetFunction, js_bind.
  rewrite checkValue_valid by exact Hlen.
  replace (Z.to_nat (last - first + 1)) with O by lia. reflexivity.
Qed.

Lemma createSetFunction_invalid (first last : Z) (attributeIndex : nat)
    (value : SetArgument) (batchTable : BatchTable) :
  invalidArgument value ->
  createSetFunction first last attributeIndex value batchTable
    = (Throw (ReferenceError "DeveloperError"), batchTable).
Proof.
  intros Hinvalid. unfold createSetFunction, js_bind.
  rewrite checkValue_invalid by exact Hinvalid. reflexivity.
Qed.

(** A value of one component is written to the whole range. *)
Lemma createSetFunction_scalar (first last : Z) (attributeIndex : nat)
    (x : Q) (batchTable : BatchTable) :
  exists batchTable',
    createSetFunction first last attributeIndex (ArgArray [x]) batchTable
      = (Normal tt, batchTable') /\
    attributes batchTable' = attributes batchTable /\
    (forall j, first <= j <= last ->
       batchValues batchTable' !! (j, attributeIndex) = Some (Scalar x)) /\
    (forall j k, ~ (first <= j <= last /\ k = attributeIndex) ->
       batchValues batchTable' !! (j, k) = batchValues batchTable !! (j, k)).
Proof.
  destruct (setLoop_spec (Scalar x) attributeIndex [x] last
              (Z.to_nat (last - first + 1)) (getAttributeValue_scalar x)
              first batchTable)
    as (bt' & Hrun & Hrest); [lia|].
  exists bt'. split; [|exact Hrest].
  unfold createSetFunction, js_bind. rewrite checkValue_valid by (simpl; lia).
  exact Hrun.
Qed.

(** A value of 2 to 4 components on a range that is not empty: the first
    decode raises its ReferenceError and nothing is written. *)
Lemma createSetFunction_vector (first last : Z) (attributeIndex : nat)
    (v : list Q) (batchTable : BatchTable) :
  (2 <= length v <= 4)%nat -> first <= last ->
  createSetFunction first last attributeIndex (ArgArray v) batchTable
    = (Throw (ReferenceError (cartesianName (length v))), batchTable).
Proof.
  intros Hlen Hrange. unfold createSetFunction, js_bind.
  rewrite checkValue_valid by lia.
  apply setLoop_raises; [apply getAttributeValue_vector; exact Hlen | exact Hrange | lia].
Qed.

(** Every call of the setter is one of four: rejected by the guard, a
    number written to the range, a vector that raises on a range that is
    not empty, or a vector on an empty range, which returns. *)
Lemma createSetFunction_cases (first last : Z) (attributeIndex : nat)
    (value : SetArgument) (batchTable : BatchTable) :
  (writtenValue value = None /\
   snd (createSetFunction first last attributeIndex value batchTable) = batchTable)
  \/
  (exists x batchTable',
     value = ArgArray [x] /\
     createSetFunction first last attributeIndex value batchTable
       = (Normal tt, batchTable') /\
     attributes batchTable' = attributes batchTable /\
     (forall j, first <= j <= last ->
        batchValues batchTable' !! (j, attributeIndex) = Some (Scalar x)) /\
     (forall j k, ~ (first <= j <= last /\ k = attributeIndex) ->
        batchValues batchTable' !! (j, k) = batchValues batchTable !! (j, k))).
Proof.
  destruct value as [| |v].
  - left. split; [reflexivity|]. rewrite createSetFunction_invalid; simpl; auto.
  - left. split; [reflexivity|]. rewrite createSetFunction_invalid; simpl; auto.
  - destruct (decide (length v = 1%nat)) as [Hone|Hmore].
    + destruct v as [|x [|y rest]]; try discriminate.
      right. destruct (createSetFunction_scalar first last attributeIndex x batchTable)
        as (bt' & Hrun & Hrest).
      exists x, bt'. split; [reflexivity|]. split; [exact Hrun | exact Hrest].
    + left. split.
      { destruct v as [|x [|y rest]]; simpl in *; congruence. }
      destruct (decide (2 <= length v <= 4)%nat) as [Hvec|Hout].
      * destruct (Z.le_gt_cases first last) as [Hle|Hgt].
        -- rewrite createSetFunction_vector; auto.
        -- rewrite createSetFunction_empty_range; auto; lia.
      * rewrite createSetFunction_invalid; [reflexivity|]. simpl. lia.
Qed.

(** The table a call of the setter leaves, slot by slot. *)
Lemma createSetFunction_table (first last : Z) (attributeIndex : nat)
    (value : SetArgument) (batchTable : BatchTable) :
  attributes (snd (createSetFunction first last attributeIndex value batchTable))
    = attributes batchTable /\
  forall j k,
    batchValues (snd (createSetFunction first last attributeIndex value batchTable))
      !! (j, k)
    = match writtenValue value with
      | Some a =>
          if decide (first <= j <= last /\ k = attributeIndex) then Some a
          else batchValues batchTable !! (j, k)
      | None => batchValues batchTable !! (j, k)
      end.
Proof.
  destruct (createSetFunction_cases first last attributeIndex value batchTable)
    as [[Hnone ->] | (x & bt' & -> & Hrun & Hattrs & Hin & Hout)].
  - rewrite Hnone. split; reflexivity.
  - rewrite Hrun. simpl. split; [exact Hattrs|].
    intros j k. destruct (decide (first <= j <= last /\ k = attributeIndex))
      as [[Hj ->]|Hjk]; [apply Hin; exact Hj | apply Hout; exact Hjk].
Qed.

(** Whether a call of the setter returns or raises does not depend on the
    table. *)
Lemma createSetFunction_completion (first last : Z) (attributeIndex : nat)
    (value : SetArgument) (batchTable batchTable' : BatchTable) :
  fst (createSetFunction first last attributeIndex value batchTable)
    = fst (createSetFunction first last attributeIndex value batchTable').
Proof.
  destruct value as [| |v].
  - rewrite !createSetFunction_invalid by exact I. reflexivity.
  - rewrite !createSetFunction_invalid by exact I. reflexivity.
  - destruct (decide (length v = 1%nat)) as [Hone|Hmore].
    + destruct v as [|x [|y rest]]; try discriminate.
      destruct (createSetFunction_scalar first last attributeIndex x batchTable)
        as (bt1 & -> & _).
      destruct (createSetFunction_scalar first last attributeIndex x batchTable')
        as (bt2 & -> & _).
      reflexivity.
    + destruct (decide (2 <= length v <= 4)%nat) as [Hvec|Hout].
      * destruct (Z.le_gt_cases first last) as [Hle|Hgt].
        -- rewrite !createSetFunction_vector by assumption. reflexivity.
        -- rewrite !createSetFunction_empty_range by lia. reflexivity.
      * rewrite !createSetFunction_invalid by (simpl; lia). reflexivity.
Qed.

(** C7, where the code departs from it: a value that is undefined, has no
    length, or has a length below 1 or above 4 makes the setter raise and
    leaves the batch table as it was, but the error is the ReferenceError
    for the unbound name [DeveloperError]; a value of one component is
    written to the slot of the attribute at every index of the range; a
    value of 2, 3 or 4 components, on a range that is not empty, raises a
    ReferenceError at the first decode and no index of the range is
    written. *)
Theorem createSetFunction_vector_value_raises
    (first last : Z) (attributeIndex : nat) (value : SetArgument)
    (batchTable : BatchTable) :
  (invalidArgument value ->
     createSetFunction first last attributeIndex value batchTable
       = (Throw (ReferenceError "DeveloperError"), batchTable)) /\
  (forall x, value = ArgArray [x] ->
     exists batchTable',
       createSetFunction first last attributeIndex value batchTable
         = (Normal tt, batchTable') /\
       forall j, first <= j <= last ->
         batchValues batchTable' !! (j, attributeIndex) = Some (Scalar x)) /\
  (forall v, value = ArgArray v -> (2 <= length v <= 4)%nat -> first <= last ->
     createSetFunction first last attributeIndex value batchTable
       = (Throw (ReferenceError (cartesianName (length v))), batchTable)).
Proof.
  split; [|split].
  - apply createSetFunction_invalid.
  - intros x ->.
    destruct (createSetFunction_scalar first last attributeIndex x batchTable)
      as (bt' & Hrun & _ & Hin & _).
    exists bt'. auto.
  - intros v -> Hlen Hrange. apply createSetFunction_vector; assumption.
Qed.

(** The setter on the colour table, range [[0, 1]]: the empty array is
    rejected, and a colour of four components raises and leaves the table
    as it was. *)
Lemma createSetFunction_vector_value_raises_witness :
  createSetFunction 0 1 0 (ArgArray []) colourTable
    = (Throw (ReferenceError "DeveloperError"), colourTable) /\
  createSetFunction 0 1 0 (ArgArray [255; 0; 0; 255]%Q) colourTable
    = (Throw (ReferenceError "Cartesian4"), colourTable).
Proof.
  split.
  - apply (proj1 (createSetFunction_vector_value_raises
                      0 1 0 (ArgArray []) colourTable)).
    simpl. lia.
  - apply (proj2 (proj2 (createSetFunction_vector_value_raises
                           0 1 0 (ArgArray [255; 0; 0; 255]%Q) colourTable))
                 [255; 0; 0; 255]%Q eq_refl).
    + simpl. lia.
    + lia.
Defined.

(** ** The synchronizer *)

(** A set of one number followed by a get on one synchronizer whose range
    is not empty. *)
Lemma synchronizerSet_then_get `{ComponentStorage}
    (synchronizer : InstanceAttributeSynchronizer) (name : string) (k : nat)
    (attribute : BatchAttribute) (x : Q) (batchTable : BatchTable) :
  properties synchronizer !! name = Some k ->
  attributes batchTable !! k = Some attribute ->
  componentsPerAttribute attribute = 1%nat ->
  representable (componentDatatype attribute) x ->
  firstInstanceIndex synchronizer <= lastInstanceIndex synchronizer ->
  exists batchTable',
    synchronizerSet synchronizer name (ArgArray [x]) batchTable = (Normal tt, batchTable') /\
    (forall i, firstInstanceIndex synchronizer <= i <= lastInstanceIndex synchronizer ->
       getBatchedAttribute batchTable' i k = Scalar x) /\
    synchronizerGet synchronizer name batchTable' = Normal (Some [x]) /\
    (forall i j,
       ~ (firstInstanceIndex synchronizer <= i <= lastInstanceIndex synchronizer) ->
       getBatchedAttribute batchTable' i j = getBatchedAttribute batchTable i j) /\
    (forall i j, j <> k ->
       getBatchedAttribute batchTable' i j = getBatchedAttribute batchTable i j).
Proof.
  intros Hname Hattr Harity Hrep Hrange.
  destruct (createSetFunction_scalar (firstInstanceIndex synchronizer)
              (lastInstanceIndex synchronizer) k x batchTable)
    as (bt' & Hrun & Hattrs & Hin & Hout).
  exists bt'. split.
  { unfold synchronizerSet. rewrite Hname. exact Hrun. }
  split.
  { intros i Hi. unfold getBatchedAttribute. rewrite Hin by exact Hi. reflexivity. }
  split.
  { unfold synchronizerGet. rewrite Hname.
    rewrite (createGetFunction_stored _ k attribute (Scalar x) bt').
    - rewrite Harity, packStep_scalar by exact Hrep. reflexivity.
    - rewrite Hattrs. exact Hattr.
    - apply Hin. lia. }
  split.
  - intros i j Hi. unfold getBatchedAttribute. rewrite Hout; [reflexivity|tauto].
  - intros i j Hj. unfold getBatchedAttribute. rewrite Hout; [reflexivity|tauto].
Qed.

(** ** The loop of decompose *)

Lemma iterationsFrom_step (verticesLength i : Z) :
  i < verticesLength - 3 ->
  iterationsFrom verticesLength i = S (iterationsFrom verticesLength (i + 3)).
Proof.
  intros Hlt. unfold iterationsFrom.
  replace (verticesLength - 3 - i + 2) with ((verticesLength - 3 - (i + 3) + 2) + 1 * 3) by lia.
  rewrite Z.div_add by lia.
  assert (0 <= (verticesLength - 3 - (i + 3) + 2) / 3) by (apply Z.div_pos; lia).
  lia.
Qed.

Lemma iterationsFrom_done (verticesLength i : Z) :
  verticesLength - 3 <= i -> iterationsFrom verticesLength i = O.
Proof.
  intros Hge. unfold iterationsFrom.
  assert ((verticesLength - 3 - i + 2) / 3 <= 0).
  { assert ((verticesLength - 3 - i + 2) / 3 < 1); [|lia].
    apply Z.div_lt_upper_bound; lia. }
  lia.
Qed.

Lemma iterationsFrom_triples (triples : Z) :
  1 <= triples -> Z.of_nat (iterationsFrom (3 * triples) 0) = triples - 1.
Proof.
  intros Hpos. unfold iterationsFrom.
  replace (3 * triples - 3 - 0 + 2) with (2 + (triples - 1) * 3) by lia.
  rewrite Z.div_add by lia. replace (2 / 3) with 0 by reflexivity. lia.
Qed.

Lemma length_windowStarts (n : nat) (i : Z) : length (windowStarts n i) = n.
Proof. revert i. induction n as [|n IH]; intros i; simpl; [|rewrite IH]; reflexivity. Qed.

Lemma lookup_windowStarts (n k : nat) (i : Z) :
  (k < n)%nat -> windowStarts n i !! k = Some (i + 3 * Z.of_nat k).
Proof.
  revert k i. induction n as [|n IH]; intros k i Hk; [lia|].
  destruct k as [|k]; simpl.
  - f_equal. lia.
  - rewrite IH by lia. f_equal. lia.
Qed.

Section DecomposeFacts.
Context `{GroundGeometry}.

Lemma length_segmentsFrom g commonId wallVertices total starts lengthSoFar :
  length (segmentsFrom g commonId wallVertices total starts lengthSoFar) = length starts.
Proof.
  revert lengthSoFar. induction starts as [|i starts IH]; intros lengthSoFar; simpl;
    [|rewrite IH]; reflexivity.
Qed.

(** With fuel for every iteration that is left, the loop appends the
    segments of the remaining windows and stops on its own condition. *)
Lemma decomposeLoop_segmentsFrom g commonId wallVertices total verticesLength (fuel : nat) :
  forall (i : Z) (lengthSoFar : Q) (polylineSegmentInstances : list SegmentInstance),
    verticesLength - 3 - i <= Z.of_nat fuel ->
    decomposeLoop fuel g commonId wallVertices total verticesLength i lengthSoFar
                  polylineSegmentInstances
      = polylineSegmentInstances ++
        segmentsFrom g commonId wallVertices total
                     (windowStarts (iterationsFrom verticesLength i) i) lengthSoFar.
Proof.
  induction fuel as [|fuel IH]; intros i lengthSoFar out Hfuel.
  - simpl. rewrite iterationsFrom_done by lia. simpl. rewrite app_nil_r. reflexivity.
  - simpl. destruct (Z.ltb_spec i (verticesLength - 3)) as [Hlt|Hge].
    + rewrite iterationsFrom_step by exact Hlt. simpl.
      destruct (decomposeStep g commonId wallVertices total i lengthSoFar)
        as [instance lengthSoFar'] eqn:Hstep.
      rewrite IH by lia. simpl. rewrite <- app_assoc. reflexivity.
    + rewrite iterationsFrom_done by lia. simpl. rewrite app_nil_r. reflexivity.
Qed.

Lemma length_lineSegments (geometryInstance : PolylineInstance) :
  length (lineSegments geometryInstance)
    = iterationsFrom (verticesLengthOf geometryInstance) 0.
Proof. unfold lineSegments. rewrite length_segmentsFrom. apply length_windowStarts. Qed.

(** What one call of [decompose] does to its two mutated arguments. *)
Lemma decompose_eq (geometryInstance : PolylineInstance)
    (polylineSegmentInstances : list SegmentInstance)
    (idsToInstanceIndices : gmap string (Z * Z)) :
  decompose geometryInstance polylineSegmentInstances idsToInstanceIndices
    = (polylineSegmentInstances ++ lineSegments geometryInstance,
       <[id geometryInstance :=
           (Z.of_nat (length polylineSegmentInstances),
            Z.of_nat (length polylineSegmentInstances)
              + Z.of_nat (length (lineSegments geometryInstance)) - 1)]>
         idsToInstanceIndices).
Proof.
  unfold decompose. rewrite decomposeLoop_segmentsFrom by lia.
  fold (wallOf geometryInstance). fold (verticesLengthOf geometryInstance).
  fold (lineSegments geometryInstance).
  rewrite length_app, Nat2Z.inj_add. reflexivity.
Qed.

End DecomposeFacts.

(** ** The segments of one line *)

Section SegmentFacts.
Context `{GroundGeometry}.

Lemma lookup_segmentsFrom_geometry g commonId wallVertices total starts :
  forall lengthSoFar k s,
    segmentsFrom g commonId wallVertices total starts lengthSoFar !! k = Some s ->
    exists i, starts !! k = Some i /\
      geometry s = fromArrays i (rightFacingNormals wallVertices)
                              (bottomPositions wallVertices) (topPositions wallVertices) /\
      id s = commonId /\
      totalLength (instanceAttributes s) = total /\
      segmentLength (instanceAttributes s) = segmentBottomLength (geometry s) /\
      widthAttribute (instanceAttributes s)
        = Some {| attributeComponentDatatype := UNSIGNED_BYTE;
                  attributeComponentsPerAttribute := 1;
                  normalize := false;
                  value := [width g] |}.
Proof.
  induction starts as [|i starts IH]; intros lengthSoFar k s Hk; [discriminate|].
  destruct k as [|k]; simpl in Hk.
  - injection Hk as <-. exists i. simpl. repeat split; reflexivity.
  - apply IH in Hk. exact Hk.
Qed.

Lemma segmentsFrom_first g commonId wallVertices total starts lengthSoFar s :
  segmentsFrom g commonId wallVertices total starts lengthSoFar !! 0%nat = Some s ->
  startDistance (instanceAttributes s) = lengthSoFar.
Proof.
  destruct starts as [|i starts]; [discriminate|]. simpl. intros Hs.
  injection Hs as <-. reflexivity.
Qed.

Lemma segmentsFrom_consecutive g commonId wallVertices total starts :
  forall lengthSoFar k s t,
    segmentsFrom g commonId wallVertices total starts lengthSoFar !! k = Some s ->
    segmentsFrom g commonId wallVertices total starts lengthSoFar !! S k = Some t ->
    startDistance (instanceAttributes t)
      = (startDistance (instanceAttributes s) + segmentLength (instanceAttributes s))%Q.
Proof.
  induction starts as [|i starts IH]; intros lengthSoFar k s t Hs Ht; [discriminate|].
  destruct k as [|k].
  - simpl in Hs, Ht. injection Hs as <-.
    apply segmentsFrom_first in Ht. exact Ht.
  - simpl in Hs. change (segmentsFrom g commonId wallVertices total (i :: starts) lengthSoFar
                           !! S (S k))
      with (segmentsFrom g commonId wallVertices total starts
              (snd (decomposeStep g commonId wallVertices total i lengthSoFar)) !! S k) in Ht.
    exact (IH _ k s t Hs Ht).
Qed.

End SegmentFacts.

Section LineFacts.
Context `{GroundGeometry}.

(** The distances that [decompose] gives the segments of a line: the first
    segment starts at distance 0; each next segment starts at the sum that
    the loop computes of the start distance and the length of the segment
    before it; every segment has the bottom length of its geometry as its
    length and carries the length of the line on the ellipsoid as its
    total length. *)
Theorem decompose_start_distances_chain (geometryInstance : PolylineInstance)
    (polylineSegmentInstances : list SegmentInstance)
    (idsToInstanceIndices : gmap string (Z * Z)) :
  let new := lineSegments geometryInstance in
  fst (decompose geometryInstance polylineSegmentInstances idsToInstanceIndices)
    = polylineSegmentInstances ++ new /\
  (forall s, new !! 0%nat = Some s -> startDistance (instanceAttributes s) = 0%Q) /\
  (forall k s t, new !! k = Some s -> new !! S k = Some t ->
     startDistance (instanceAttributes t)
       = (startDistance (instanceAttributes s) + segmentLength (instanceAttributes s))%Q) /\
  (forall s, s ∈ new ->
     segmentLength (instanceAttributes s) = segmentBottomLength (geometry s) /\
     totalLength (instanceAttributes s) = lengthOnEllipsoid (geometry geometryInstance)).
Proof.
  intros new. split; [rewrite decompose_eq; reflexivity|].
  split; [intros s Hs; exact (segmentsFrom_first _ _ _ _ _ _ _ Hs)|].
  split; [intros k s t Hs Ht; exact (segmentsFrom_consecutive _ _ _ _ _ _ _ _ _ Hs Ht)|].
  intros s Hs. apply list_elem_of_lookup in Hs as [k Hk].
  apply lookup_segmentsFrom_geometry in Hk as (i & _ & _ & _ & Htotal & Hlen & _).
  split; [exact Hlen | exact Htotal].
Qed.

(** C3: when the wall vertex arrays hold a whole number of triples, at least
    one, [decompose] appends exactly [(verticesLength - 3) / 3] segments; the
    k-th is built from the window that starts at [3 * k], and every window
    start is below [verticesLength - 3], so that no segment starts at the
    final triple. *)
Theorem decompose_one_segment_per_window (geometryInstance : PolylineInstance)
    (polylineSegmentInstances : list SegmentInstance)
    (idsToInstanceIndices : gmap string (Z * Z)) :
  let verticesLength := verticesLengthOf geometryInstance in
  let wallVertices := wallOf geometryInstance in
  verticesLength mod 3 = 0 ->
  3 <= verticesLength ->
  exists new,
    fst (decompose geometryInstance polylineSegmentInstances idsToInstanceIndices)
      = polylineSegmentInstances ++ new /\
    Z.of_nat (length new) = (verticesLength - 3) / 3 /\
    (forall k, (k < length new)%nat ->
       exists s, new !! k = Some s /\
         geometry s = fromArrays (3 * Z.of_nat k) (rightFacingNormals wallVertices)
                                 (bottomPositions wallVertices) (topPositions wallVertices) /\
         3 * Z.of_nat k < verticesLength - 3) /\
    (forall k s, new !! k = Some s -> 3 * Z.of_nat k <> verticesLength - 3).
Proof.
  intros verticesLength wallVertices Hmod Hmin.
  assert (exists triples, verticesLength = 3 * triples /\ 1 <= triples) as (triples & Hvl & Hpos).
  { exists (verticesLength / 3). split; [|apply Z.div_le_lower_bound; lia].
    apply Z.div_exact; [lia|exact Hmod]. }
  assert (Z.of_nat (length (lineSegments geometryInstance)) = triples - 1) as Hcount.
  { rewrite length_lineSegments. fold verticesLength. rewrite Hvl.
    apply iterationsFrom_triples. exact Hpos. }
  exists (lineSegments geometryInstance).
  split; [rewrite decompose_eq; reflexivity|].
  split.
  { rewrite Hcount, Hvl. replace (3 * triples - 3) with ((triples - 1) * 3) by lia.
    rewrite Z.div_mul by lia. reflexivity. }
  assert (forall k s, lineSegments geometryInstance !! k = Some s ->
            geometry s = fromArrays (3 * Z.of_nat k) (rightFacingNormals wallVertices)
                           (bottomPositions wallVertices) (topPositions wallVertices) /\
            3 * Z.of_nat k < verticesLength - 3) as Hwindow.
  { intros k s Hs. pose proof (lookup_lt_Some _ _ _ Hs) as Hk.
    apply lookup_segmentsFrom_geometry in Hs as (i & Hi & Hgeom & _).
    rewrite lookup_windowStarts in Hi.
    - injection Hi as <-. split; [exact Hgeom|].
      assert (Z.of_nat k < triples - 1) by (rewrite <- Hcount; apply inj_lt; exact Hk).
      lia.
    - rewrite <- length_lineSegments. exact Hk. }
  split.
  - intros k Hk. destruct (lookup_lt_is_Some_2 _ _ Hk) as [s Hs].
    exists s. split; [exact Hs|]. exact (Hwindow k s Hs).
  - intros k s Hs. destruct (Hwindow k s Hs) as [_ Hlt]. lia.
Qed.

End LineFacts.

(** ** Examples on one line *)

(** A line of three positions, hence of nine wall entries, of width 2, whose
    length on the ellipsoid is 5. *)
Lemma lineSegments_example :
  @lineSegments unitSegments (line "a" path3 2 5)
    = [ {| geometry := 0;
           instanceAttributes :=
             {| startDistance := 0; segmentLength := 1; totalLength := 5;
                widthAttribute :=
                  Some {| attributeComponentDatatype := UNSIGNED_BYTE;
                          attributeComponentsPerAttribute := 1;
                          normalize := false; value := [2%Q] |} |};
           id := "a" |};
        {| geometry := 3;
           instanceAttributes :=
             {| startDistance := 1; segmentLength := 1; totalLength := 5;
                widthAttribute :=
                  Some {| attributeComponentDatatype := UNSIGNED_BYTE;
                          attributeComponentsPerAttribute := 1;
                          normalize := false; value := [2%Q] |} |};
           id := "a" |} ].
Proof. vm_compute. reflexivity. Qed.

(** Nine wall entries: two segments, from the windows at 0 and at 3. *)
Lemma decompose_one_segment_per_window_witness :
  @verticesLengthOf unitSegments (line "a" path3 2 5) mod 3 = 0 /\
  3 <= @verticesLengthOf unitSegments (line "a" path3 2 5) /\
  exists new,
    fst (@decompose unitSegments (line "a" path3 2 5) [] ∅) = [] ++ new /\
    Z.of_nat (length new) = (@verticesLengthOf unitSegments (line "a" path3 2 5) - 3) / 3 /\
    (forall k, (k < length new)%nat ->
       exists s, new !! k = Some s /\
         geometry s = 3 * Z.of_nat k /\
         3 * Z.of_nat k < @verticesLengthOf unitSegments (line "a" path3 2 5) - 3) /\
    (forall k s, new !! k = Some s ->
       3 * Z.of_nat k <> @verticesLengthOf unitSegments (line "a" path3 2 5) - 3).
Proof.
  split; [reflexivity|]. split; [cbv; discriminate|].
  apply (@decompose_one_segment_per_window unitSegments (line "a" path3 2 5) [] ∅).
  - reflexivity.
  - cbv. discriminate.
Defined.

(** ** The decomposition pass *)

Section BatchFacts.
Context `{GroundGeometry}.

Lemma pass_cons g rest acc :
  pass (g :: rest) acc = pass rest (decompose g (fst acc) (snd acc)).
Proof. reflexivity. Qed.

Lemma pass_app l1 l2 acc : pass (l1 ++ l2) acc = pass l2 (pass l1 acc).
Proof. apply fold_left_app. Qed.

(** The output array is the concatenation of the segments of the lines. *)
Lemma pass_segments geometryInstances :
  forall acc, fst (pass geometryInstances acc)
              = fst acc ++ flat_map lineSegments geometryInstances.
Proof.
  induction geometryInstances as [|g rest IH]; intros acc.
  - simpl. rewrite app_nil_r. reflexivity.
  - rewrite pass_cons, IH, decompose_eq. simpl. rewrite <- app_assoc. reflexivity.
Qed.

(** Lines of other ids leave the entry of an id alone. *)
Lemma pass_lookup_other geometryInstances (i : string) :
  i ∉ id <$> geometryInstances ->
  forall acc, snd (pass geometryInstances acc) !! i = snd acc !! i.
Proof.
  induction geometryInstances as [|g rest IH]; intros Hnot acc; [reflexivity|].
  rewrite fmap_cons in Hnot. apply not_elem_of_cons in Hnot as [Hne Hrest].
  rewrite pass_cons, IH by exact Hrest. rewrite decompose_eq. simpl.
  apply lookup_insert_ne. congruence.
Qed.

(** The entry of an id is the range of the last line decomposed with it. *)
Lemma pass_lookup_last l1 g l2 acc :
  id g ∉ id <$> l2 ->
  snd (pass (l1 ++ g :: l2) acc) !! id g
    = Some (Z.of_nat (length (fst acc ++ flat_map lineSegments l1)),
            Z.of_nat (length (fst acc ++ flat_map lineSegments l1))
              + Z.of_nat (length (lineSegments g)) - 1).
Proof.
  intros Hlast. rewrite pass_app, pass_cons, pass_lookup_other by exact Hlast.
  rewrite decompose_eq. simpl. rewrite pass_segments. apply lookup_insert_eq.
Qed.

(** Every registered id is the id of a line of the batch. *)
Lemma pass_registered geometryInstances (i : string) (range : Z * Z) :
  snd (pass geometryInstances ([], ∅)) !! i = Some range ->
  exists l1 g l2, geometryInstances = l1 ++ g :: l2 /\ id g = i /\ i ∉ id <$> l2.
Proof.
  intros Hreg.
  destruct (decide (i ∈ id <$> geometryInstances)) as [Hin|Hnot].
  - apply list_elem_of_split_r in Hin as (m1 & m2 & Hsplit & Hlast).
    apply fmap_app_inv in Hsplit as (l1 & l2' & -> & Hcons & ->).
    symmetry in Hcons. apply fmap_cons_inv in Hcons as (g & l2 & -> & -> & ->).
    exists l1, g, l2. auto.
  - rewrite pass_lookup_other in Hreg by exact Hnot. simpl in Hreg.
    rewrite lookup_empty in Hreg. discriminate.
Qed.

Lemma rangesOk_decompose g acc :
  rangesOk acc -> rangesOk (decompose g (fst acc) (snd acc)).
Proof.
  intros [Hbounds Hdisjoint]. rewrite decompose_eq. split; simpl.
  - intros i first last Hi. rewrite length_app, Nat2Z.inj_add.
    destruct (decide (id g = i)) as [<-|Hne].
    + rewrite lookup_insert_eq in Hi. injection Hi as <- <-. lia.
    + rewrite lookup_insert_ne in Hi by exact Hne.
      apply Hbounds in Hi. lia.
  - intros i1 i2 [f1 l1] [f2 l2] Hne H1 H2 k [[Ha Hb] [Hc Hd]]. simpl in *.
    destruct (decide (id g = i1)) as [<-|Hne1].
    + rewrite lookup_insert_eq in H1. injection H1 as <- <-.
      rewrite lookup_insert_ne in H2 by exact Hne.
      apply Hbounds in H2. lia.
    + rewrite lookup_insert_ne in H1 by exact Hne1.
      destruct (decide (id g = i2)) as [<-|Hne2].
      * rewrite lookup_insert_eq in H2. injection H2 as <- <-.
        apply Hbounds in H1. lia.
      * rewrite lookup_insert_ne in H2 by exact Hne2.
        apply (Hdisjoint i1 i2 (f1, l1) (f2, l2) Hne H1 H2 k).
        unfold inRange. simpl. lia.
Qed.

Lemma rangesOk_pass geometryInstances :
  forall acc, rangesOk acc -> rangesOk (pass geometryInstances acc).
Proof.
  induction geometryInstances as [|g rest IH]; intros acc Hok; [exact Hok|].
  rewrite pass_cons. apply IH, rangesOk_decompose, Hok.
Qed.

Lemma rangesOk_empty : rangesOk ([], ∅).
Proof.
  split; simpl.
  - intros i first last Hi. rewrite lookup_empty in Hi. discriminate.
  - intros i1 i2 r1 r2 _ H1. rewrite lookup_empty in H1. discriminate.
Qed.

(** A line has a segment exactly when it has more than three wall entries. *)
Lemma lineSegments_nonempty (g : PolylineInstance) :
  (1 <= length (lineSegments g))%nat <-> 3 < verticesLengthOf g.
Proof.
  rewrite length_lineSegments.
  destruct (Z_lt_le_dec 0 (verticesLengthOf g - 3)) as [Hlt|Hge].
  - rewrite iterationsFrom_step by exact Hlt. lia.
  - rewrite iterationsFrom_done by lia. lia.
Qed.

End BatchFacts.

(** ** The index after the pass *)

Section IndexFacts.
Context `{GroundGeometry}.

Lemma decomposeAll_pass geometryInstances idsToInstanceIndices :
  decomposeAll geometryInstances idsToInstanceIndices
    = pass geometryInstances ([], idsToInstanceIndices).
Proof. reflexivity. Qed.

Lemma decomposeAll_segments geometryInstances idsToInstanceIndices :
  fst (decomposeAll geometryInstances idsToInstanceIndices)
    = flat_map lineSegments geometryInstances.
Proof. rewrite decomposeAll_pass, pass_segments. reflexivity. Qed.

Lemma decomposeAll_lookup_last l1 g l2 idsToInstanceIndices :
  id g ∉ id <$> l2 ->
  snd (decomposeAll (l1 ++ g :: l2) idsToInstanceIndices) !! id g
    = Some (Z.of_nat (length (flat_map lineSegments l1)),
            Z.of_nat (length (flat_map lineSegments l1))
              + Z.of_nat (length (lineSegments g)) - 1).
Proof. intros Hlast. rewrite decomposeAll_pass, pass_lookup_last by exact Hlast. reflexivity. Qed.

(** C5, as the code has it: after the decomposition of a batch every
    registered range [[first, last]] lies in the segment array and satisfies
    [first <= last + 1]; the ranges of two distinct ids share no index; and
    [first <= last] holds for an id exactly when the last line decomposed
    with it has more than three wall entries, that is, at least one
    segment. *)
Theorem registered_ranges_disjoint (geometryInstances : list PolylineInstance) :
  let segments := fst (decomposeAll geometryInstances ∅) in
  let index := snd (decomposeAll geometryInstances ∅) in
  (forall i first last, index !! i = Some (first, last) ->
     0 <= first /\ first <= last + 1 /\ last < Z.of_nat (length segments)) /\
  (forall i1 i2 r1 r2, i1 <> i2 -> index !! i1 = Some r1 -> index !! i2 = Some r2 ->
     forall k, ~ (inRange k r1 /\ inRange k r2)) /\
  (forall i first last, index !! i = Some (first, last) ->
     exists l1 g l2,
       geometryInstances = l1 ++ g :: l2 /\ id g = i /\ (i ∉ id <$> l2) /\
       (first <= last <-> 3 < verticesLengthOf g)).
Proof.
  intros segments index.
  pose proof (rangesOk_pass geometryInstances ([], ∅) rangesOk_empty) as [Hbounds Hdisjoint].
  split; [exact Hbounds|]. split; [exact Hdisjoint|].
  intros i first last Hi.
  destruct (pass_registered geometryInstances i (first, last) Hi)
    as (l1 & g & l2 & -> & <- & Hlast).
  exists l1, g, l2. repeat split; try assumption.
  - intros Hle. apply lineSegments_nonempty.
    unfold index in Hi. rewrite decomposeAll_lookup_last in Hi by exact Hlast.
    injection Hi as <- <-. lia.
  - intros Hvl. apply lineSegments_nonempty in Hvl.
    unfold index in Hi. rewrite decomposeAll_lookup_last in Hi by exact Hlast.
    injection Hi as <- <-. lia.
Qed.

End IndexFacts.

(** ** Attribute access by id *)

Lemma objectGet_own {A} (object : gmap string A) (key : string) (a : A) :
  object !! key = Some a -> objectGet object key = Own a.
Proof. intros Hkey. unfold objectGet. rewrite Hkey. reflexivity. Qed.

Lemma objectGet_absent {A} (object : gmap string A) (key : string) :
  object !! key = None -> key ∉ objectPrototypeNames -> objectGet object key = Absent.
Proof.
  intros Hkey Hname. unfold objectGet. rewrite Hkey.
  destruct (decide (key ∈ objectPrototypeNames)); [contradiction | reflexivity].
Qed.

Lemma objectGet_inherited {A} (object : gmap string A) (key : string) :
  object !! key = None -> key ∈ objectPrototypeNames ->
  objectGet object key = Inherited key.
Proof.
  intros Hkey Hname. unfold objectGet. rewrite Hkey.
  destruct (decide (key ∈ objectPrototypeNames)); [reflexivity | contradiction].
Qed.

Lemma objectGet_Absent_inv {A} (object : gmap string A) (key : string) :
  objectGet object key = Absent ->
  object !! key = None /\ key ∉ objectPrototypeNames.
Proof.
  unfold objectGet. destruct (object !! key); [discriminate|].
  destruct (decide (key ∈ objectPrototypeNames)); [discriminate | auto].
Qed.

Section AccessFacts.
Context `{Rendering}.

(** The state of a built primitive: the inner primitive holds the batch
    table and the attribute indices, the index is the one of the pass and
    the cache is empty. *)
Lemma builtPrimitive_fields frameState geometryInstances batchTable
    batchTableAttributeIndices :
  let this :=
    builtPrimitive frameState geometryInstances batchTable batchTableAttributeIndices in
  (exists primitive,
     _primitive this = Some primitive /\
     _batchTable primitive = Some batchTable /\
     _batchTableAttributeIndices primitive = batchTableAttributeIndices) /\
  _idsToInstanceIndices this = snd (decomposeAll geometryInstances ∅) /\
  _attributeSynchronizerCache this = ∅.
Proof.
  unfold builtPrimitive, update, newGroundPolylinePrimitive, createPrimitive. simpl.
  destruct (decomposeAll geometryInstances ∅) as [segs idx]. simpl.
  split; [|split; reflexivity].
  eexists. split; [reflexivity|]. split; reflexivity.
Qed.

(** An id that the index owns, that the cache does not own and that names
    no member of [Object.prototype]: the synchronizer is constructed on the
    registered range and cached. *)
Lemma getGeometryInstanceAttributes_constructs
    (this : GroundPolylinePrimitive) (primitive : Primitive) (batchTable : BatchTable)
    (i : string) (range : Z * Z) :
  _primitive this = Some primitive ->
  _batchTable primitive = Some batchTable ->
  _idsToInstanceIndices this !! i = Some range ->
  _attributeSynchronizerCache this !! i = None ->
  i ∉ objectPrototypeNames ->
  getGeometryInstanceAttributes (Some i) this
    = (Normal (Some (Synchronizer
         (newInstanceAttributeSynchronizer (fst range) (snd range)
            (_batchTableAttributeIndices primitive)))),
       cacheSynchronizer i
         (newInstanceAttributeSynchronizer (fst range) (snd range)
            (_batchTableAttributeIndices primitive))
         this).
Proof.
  intros Hprim Htable Hreg Hcache Hname. unfold getGeometryInstanceAttributes.
  rewrite Hprim, Htable, (objectGet_own _ _ _ Hreg),
    (objectGet_absent _ _ Hcache Hname).
  reflexivity.
Qed.

(** An id that names a member of [Object.prototype] and that the cache does
    not own: the member is returned, whether the index owns the id or not,
    and the primitive is as before. *)
Lemma getGeometryInstanceAttributes_prototype
    (this : GroundPolylinePrimitive) (primitive : Primitive) (batchTable : BatchTable)
    (i : string) :
  _primitive this = Some primitive ->
  _batchTable primitive = Some batchTable ->
  _attributeSynchronizerCache this !! i = None ->
  i ∈ objectPrototypeNames ->
  getGeometryInstanceAttributes (Some i) this
    = (Normal (Some (PrototypeMember i)), this).
Proof.
  intros Hprim Htable Hcache Hname. unfold getGeometryInstanceAttributes.
  rewrite Hprim, Htable, (objectGet_inherited _ _ Hcache Hname).
  unfold objectGet. destruct (_idsToInstanceIndices this !! i) as [range|].
  - reflexivity.
  - destruct (decide (i ∈ objectPrototypeNames)); [reflexivity | contradiction].
Qed.

(** When [undefined] is returned, the index does not own the id. *)
Lemma getGeometryInstanceAttributes_undefined
    (this : GroundPolylinePrimitive) (i : string) :
  fst (getGeometryInstanceAttributes (Some i) this) = Normal None ->
  _idsToInstanceIndices this !! i = None.
Proof.
  unfold getGeometryInstanceAttributes.
  destruct (_primitive this) as [primitive|]; [|discriminate].
  destruct (_batchTable primitive) as [batchTable|]; [|discriminate].
  destruct (objectGet (_idsToInstanceIndices this) i) as [range|name|] eqn:Hindex.
  - destruct (objectGet (_attributeSynchronizerCache this) i); discriminate.
  - destruct (objectGet (_attributeSynchronizerCache this) i); discriminate.
  - intros _. apply objectGet_Absent_inv in Hindex as [Hindex _]. exact Hindex.
Qed.

(** On a built primitive, for a registered id that names no member of
    [Object.prototype]. *)
Lemma getGeometryInstanceAttributes_registered
    frameState geometryInstances batchTable batchTableAttributeIndices
    (i : string) (range : Z * Z) :
  snd (decomposeAll geometryInstances ∅) !! i = Some range ->
  i ∉ objectPrototypeNames ->
  fst (getGeometryInstanceAttributes (Some i)
         (builtPrimitive frameState geometryInstances batchTable
            batchTableAttributeIndices))
    = Normal (Some (Synchronizer
        (newInstanceAttributeSynchronizer (fst range) (snd range)
           batchTableAttributeIndices))).
Proof.
  intros Hreg Hname.
  destruct (builtPrimitive_fields frameState geometryInstances batchTable
              batchTableAttributeIndices)
    as ((primitive & Hprim & Htable & Hindices) & Hindex & Hcache).
  rewrite (getGeometryInstanceAttributes_constructs _ primitive batchTable i range);
    try assumption.
  - simpl. rewrite Hindices. reflexivity.
  - rewrite Hindex. exact Hreg.
  - rewrite Hcache. apply lookup_empty.
Qed.


(** C4, as the code has it: a line of at most three wall entries produces
    no segment, and [decompose] still registers its id, with the empty range
    [[start, start - 1]] where [start] is the length of the segment array
    before the call.  When no later line of the batch carries the id and
    the id names no member of [Object.prototype], the index of the built
    primitive holds that range and [getGeometryInstanceAttributes] returns
    for the id a synchronizer over it, whose setter leaves the batch table
    as it is whatever it is given; and [undefined] is returned only for ids
    that no line of the batch carries. *)
Theorem degenerate_line_registered_empty
    (frameState : FrameState)
    (l1 l2 : list PolylineInstance) (g : PolylineInstance)
    (batchTable : BatchTable) (batchTableAttributeIndices : gmap string nat) :
  id g ∉ id <$> l2 ->
  id g ∉ objectPrototypeNames ->
  verticesLengthOf g <= 3 ->
  let batch := l1 ++ g :: l2 in
  let this := builtPrimitive frameState batch batchTable batchTableAttributeIndices in
  let start := Z.of_nat (length (flat_map lineSegments l1)) in
  lineSegments g = [] /\
  (forall polylineSegmentInstances idsToInstanceIndices,
     snd (decompose g polylineSegmentInstances idsToInstanceIndices) !! id g
       = Some (Z.of_nat (length polylineSegmentInstances),
               Z.of_nat (length polylineSegmentInstances) - 1)) /\
  _idsToInstanceIndices this !! id g = Some (start, start - 1) /\
  (exists synchronizer,
     fst (getGeometryInstanceAttributes (Some (id g)) this)
       = Normal (Some (Synchronizer synchronizer)) /\
     firstInstanceIndex synchronizer = start /\
     lastInstanceIndex synchronizer = start - 1 /\
     properties synchronizer = batchTableAttributeIndices /\
     forall name value,
       snd (synchronizerSet synchronizer name value batchTable) = batchTable) /\
  (forall i, fst (getGeometryInstanceAttributes (Some i) this) = Normal None ->
     i ∉ id <$> batch).
Proof.
  intros Hlast Hname Hvl batch this start.
  assert (lineSegments g = []) as Hnone.
  { apply length_zero_iff_nil. rewrite length_lineSegments.
    apply iterationsFrom_done. lia. }
  assert (snd (decomposeAll batch ∅) !! id g = Some (start, start - 1)) as Hreg.
  { unfold batch. rewrite decomposeAll_lookup_last by exact Hlast.
    rewrite Hnone. simpl. f_equal. f_equal. lia. }
  destruct (builtPrimitive_fields frameState batch batchTable batchTableAttributeIndices)
    as (_ & Hindex & _).
  fold this in Hindex.
  split; [exact Hnone|]. split.
  { intros segs idx. rewrite decompose_eq, Hnone. simpl.
    rewrite lookup_insert_eq. f_equal. f_equal. lia. }
  split; [rewrite Hindex; exact Hreg|]. split.
  - exists (newInstanceAttributeSynchronizer start (start - 1) batchTableAttributeIndices).
    split.
    { unfold this.
      rewrite (getGeometryInstanceAttributes_registered _ _ _ _ _ _ Hreg Hname).
      reflexivity. }
    split; [reflexivity|]. split; [reflexivity|]. split; [reflexivity|].
    intros name value. unfold synchronizerSet. simpl.
    destruct (batchTableAttributeIndices !! name) as [k|]; [|reflexivity].
    destruct (createSetFunction_cases start (start - 1) k value batchTable)
      as [[_ Hsame] | (x & bt' & -> & Hrun & _)]; [exact Hsame|].
    rewrite createSetFunction_empty_range in Hrun by (simpl; lia).
    rewrite createSetFunction_empty_range by (simpl; lia). reflexivity.
  - intros i Hi Hin. apply getGeometryInstanceAttributes_undefined in Hi.
    rewrite Hindex in Hi.
    apply list_elem_of_split_r in Hin as (m1 & m2 & Hsplit & Hlater).
    apply fmap_app_inv in Hsplit as (k1 & k2' & -> & Hcons & Hbatch).
    symmetry in Hcons. apply fmap_cons_inv in Hcons as (g' & k2 & Hid & -> & ->).
    rewrite Hbatch in Hi. rewrite Hid in *.
    rewrite decomposeAll_lookup_last in Hi by exact Hlater. discriminate.
Qed.

(** C9, as the code has it: [decompose] and the loop of [update] validate
    nothing and skip no line.  Whatever the paths and the widths, the
    segment array is the concatenation, in batch order, of the segments of
    every line, each line contributing the segments it has on its own;
    every segment carries the id of its line and its width, of either
    sign, as its width attribute; and the id of every line is registered,
    with the range of the last line of the batch that carries it: from the
    number of segments before that line to that number plus the number of
    its segments minus one, which is the empty range from [start] to
    [start - 1] when that line has at most three wall entries. *)
Theorem decomposeAll_skips_no_line (geometryInstances : list PolylineInstance) :
  let segments := fst (decomposeAll geometryInstances ∅) in
  let index := snd (decomposeAll geometryInstances ∅) in
  segments = flat_map lineSegments geometryInstances /\
  (forall g, g ∈ geometryInstances ->
     is_Some (index !! id g) /\
     fst (decompose g [] ∅) = lineSegments g /\
     forall s, s ∈ lineSegments g ->
       id s = id g /\
       (value <$> widthAttribute (instanceAttributes s)) = Some [width (geometry g)]) /\
  (forall l1 g l2, geometryInstances = l1 ++ g :: l2 -> (id g ∉ id <$> l2) ->
     let start := Z.of_nat (length (flat_map lineSegments l1)) in
     index !! id g = Some (start, start + Z.of_nat (length (lineSegments g)) - 1) /\
     (verticesLengthOf g <= 3 -> index !! id g = Some (start, start - 1))).
Proof.
  intros segments index.
  split; [apply decomposeAll_segments|]. split.
  - intros g Hg. split; [|split].
    + destruct (decide (id g ∈ id <$> geometryInstances)) as [Hin|Hnot].
      * apply list_elem_of_split_r in Hin as (m1 & m2 & Hsplit & Hlast).
        apply fmap_app_inv in Hsplit as (l1 & l2' & -> & Hcons & Hbatch).
        symmetry in Hcons. apply fmap_cons_inv in Hcons as (g' & l2 & Hid & -> & ->).
        unfold index. rewrite Hbatch. rewrite Hid in *.
        rewrite decomposeAll_lookup_last by exact Hlast. eauto.
      * exfalso. apply Hnot. apply list_elem_of_fmap_2. exact Hg.
    + rewrite decompose_eq. reflexivity.
    + intros s Hs. apply list_elem_of_lookup in Hs as [k Hk].
      apply lookup_segmentsFrom_geometry in Hk as (i & _ & _ & Hid & _ & _ & Hwidth).
      rewrite Hwidth. split; [exact Hid|reflexivity].
  - intros l1 g l2 -> Hlast start.
    assert (index !! id g
            = Some (start, start + Z.of_nat (length (lineSegments g)) - 1)) as Hreg.
    { unfold index. rewrite decomposeAll_lookup_last by exact Hlast. reflexivity. }
    split; [exact Hreg|].
    intros Hvl. rewrite Hreg.
    assert (length (lineSegments g) = 0%nat) as ->.
    { rewrite length_lineSegments. apply iterationsFrom_done. lia. }
    f_equal. f_equal. lia.
Qed.

(** C1, as the code has it: for an id that names no member of
    [Object.prototype] and is registered with a range [[a, b]] that is not
    empty, [getGeometryInstanceAttributes] returns a synchronizer on which,
    for a value of one component, representable in the datatype of an
    attribute declared with one component, the setter returns, every
    index of the range then holds that number for the attribute, the getter
    returns the value, and every slot of an index outside the range, like
    every slot of another attribute, is unchanged. *)
Theorem synchronizer_set_uniform `{ComponentStorage}
    (frameState : FrameState)
    (geometryInstances : list PolylineInstance) (batchTable : BatchTable)
    (batchTableAttributeIndices : gmap string nat)
    (i : string) (a b : Z) (name : string) (k : nat)
    (attribute : BatchAttribute) (x : Q) :
  snd (decomposeAll geometryInstances ∅) !! i = Some (a, b) ->
  a <= b ->
  i ∉ objectPrototypeNames ->
  batchTableAttributeIndices !! name = Some k ->
  attributes batchTable !! k = Some attribute ->
  componentsPerAttribute attribute = 1%nat ->
  representable (componentDatatype attribute) x ->
  exists synchronizer batchTable',
    fst (getGeometryInstanceAttributes (Some i)
           (builtPrimitive frameState geometryInstances batchTable
              batchTableAttributeIndices))
      = Normal (Some (Synchronizer synchronizer)) /\
    synchronizerSet synchronizer name (ArgArray [x]) batchTable = (Normal tt, batchTable') /\
    (forall j, a <= j <= b -> getBatchedAttribute batchTable' j k = Scalar x) /\
    synchronizerGet synchronizer name batchTable' = Normal (Some [x]) /\
    (forall j l, ~ (a <= j <= b) ->
       getBatchedAttribute batchTable' j l = getBatchedAttribute batchTable j l) /\
    (forall j l, l <> k ->
       getBatchedAttribute batchTable' j l = getBatchedAttribute batchTable j l).
Proof.
  intros Hreg Hrange Hid Hname Hattr Harity Hrep.
  set (synchronizer := newInstanceAttributeSynchronizer a b batchTableAttributeIndices).
  destruct (synchronizerSet_then_get synchronizer name k attribute x batchTable
              Hname Hattr Harity Hrep Hrange)
    as (bt' & Hset & Hin & Hget & Hout & Hother).
  exists synchronizer, bt'.
  split; [|auto 10].
  rewrite (getGeometryInstanceAttributes_registered _ _ _ _ _ _ Hreg Hid). reflexivity.
Qed.

End AccessFacts.

(** ** Examples on batches *)

(** C1, counterexample, on the table of colours and widths.  A line without
    segments is registered with the range [[0, -1]]: the setter of its
    synchronizer writes nothing and the getter then returns the width of
    the first segment of the next line, not the value set.  On the range of
    two segments, a number set on the colour, an attribute of four
    components, is read back as four components; and the width 256, which
    an unsigned byte does not hold, is read back as 0.  For a line whose id
    is [toString] no synchronizer is returned at all. *)
Lemma synchronizer_get_differs_from_set :
  (exists synchronizer,
     snd (@decomposeAll unitSegments emptyFirst ∅) !! "b"%string = Some (0, -1) /\
     fst (getGeometryInstanceAttributes (Some "b"%string)
            (exampleBuilt emptyFirst widthTable widthIndices))
       = Normal (Some (Synchronizer synchronizer)) /\
     synchronizerSet synchronizer "width" (ArgArray [7%Q]) widthTable
       = (Normal tt, widthTable) /\
     @synchronizerGet typedArrays synchronizer "width" widthTable
       = Normal (Some [2%Q]) /\
     @synchronizerGet typedArrays synchronizer "width" widthTable
       <> Normal (Some [7%Q])) /\
  (exists synchronizer batchTable',
     snd (@decomposeAll unitSegments emptyFirst ∅) !! "a"%string = Some (0, 1) /\
     fst (getGeometryInstanceAttributes (Some "a"%string)
            (exampleBuilt emptyFirst widthTable widthIndices))
       = Normal (Some (Synchronizer synchronizer)) /\
     synchronizerSet synchronizer "color" (ArgArray [7%Q]) widthTable
       = (Normal tt, batchTable') /\
     @synchronizerGet typedArrays synchronizer "color" batchTable'
       = Normal (Some [7; 0; 0; 0]%Q) /\
     @synchronizerGet typedArrays synchronizer "color" batchTable'
       <> Normal (Some [7%Q])) /\
  (exists synchronizer batchTable',
     fst (getGeometryInstanceAttributes (Some "a"%string)
            (exampleBuilt emptyFirst widthTable widthIndices))
       = Normal (Some (Synchronizer synchronizer)) /\
     ~ @representable typedArrays UNSIGNED_BYTE 256 /\
     synchronizerSet synchronizer "width" (ArgArray [256%Q]) widthTable
       = (Normal tt, batchTable') /\
     getBatchedAttribute batchTable' 0 1 = Scalar 256 /\
     @synchronizerGet typedArrays synchronizer "width" batchTable'
       = Normal (Some [0%Q]) /\
     @synchronizerGet typedArrays synchronizer "width" batchTable'
       <> Normal (Some [256%Q])) /\
  (snd (@decomposeAll unitSegments [line "toString" path3 2 5] ∅) !! "toString"%string
     = Some (0, 1) /\
   fst (getGeometryInstanceAttributes (Some "toString"%string)
          (exampleBuilt [line "toString" path3 2 5] widthTable widthIndices))
     = Normal (Some (PrototypeMember "toString"))).
Proof.
  split; [|split; [|split]].
  - eexists. split; [vm_compute; reflexivity|]. split; [vm_compute; reflexivity|].
    split; [vm_compute; reflexivity|]. split; [vm_compute; reflexivity|].
    vm_compute. discriminate.
  - eexists. eexists. split; [vm_compute; reflexivity|].
    split; [vm_compute; reflexivity|]. split; [vm_compute; reflexivity|].
    split; [vm_compute; reflexivity|]. vm_compute. discriminate.
  - eexists. eexists. split; [vm_compute; reflexivity|].
    split; [vm_compute; discriminate|].
    split; [vm_compute; reflexivity|]. split; [vm_compute; reflexivity|].
    split; [vm_compute; reflexivity|]. vm_compute. discriminate.
  - split; vm_compute; reflexivity.
Qed.

(** C4, counterexample: a line of one position has three wall entries and no
    segment; its id is present in the index, with the range [[0, -1]], and
    [getGeometryInstanceAttributes] returns a synchronizer for it, not
    [undefined].  When a line with segments follows under the same id, the
    id has the range of that line; and for a line without segments whose
    id is [toString] no synchronizer is returned. *)
Lemma degenerate_line_is_registered :
  @lineSegments unitSegments (line "b" path1 2 0) = [] /\
  snd (@decomposeAll unitSegments [line "b" path1 2 0] ∅) !! "b"%string = Some (0, -1) /\
  fst (getGeometryInstanceAttributes (Some "b"%string)
         (exampleBuilt [line "b" path1 2 0] colourTable colourIndices))
    = Normal (Some (Synchronizer (newInstanceAttributeSynchronizer 0 (-1) colourIndices))) /\
  fst (getGeometryInstanceAttributes (Some "b"%string)
         (exampleBuilt [line "b" path1 2 0] colourTable colourIndices))
    <> Normal None /\
  snd (@decomposeAll unitSegments emptyThenFull ∅) !! "b"%string = Some (0, 1) /\
  fst (getGeometryInstanceAttributes (Some "toString"%string)
         (exampleBuilt [line "toString" path1 2 0] colourTable colourIndices))
    = Normal (Some (PrototypeMember "toString")).
Proof.
  split; [vm_compute; reflexivity|]. split; [vm_compute; reflexivity|].
  split; [vm_compute; reflexivity|]. split; [vm_compute; discriminate|].
  split; vm_compute; reflexivity.
Qed.

(** C5, counterexample: after a line of two segments, a line without
    segments is registered with the range [[2, 1]], whose first index is
    above its last. *)
Lemma registered_range_first_above_last :
  snd (@decomposeAll unitSegments emptyLast ∅) !! "b"%string = Some (2, 1) /\
  ~ (2 <= 1).
Proof. split; [vm_compute; reflexivity|lia]. Qed.

(** C9, counterexample: a line of width -1 and a line of a single position
    are decomposed like the line after them: the first has its two segments
    in the array, under its id and with its width, and the range [[0, 1]];
    the second is registered with the range [[2, 1]]; nothing is thrown or
    skipped. *)
Lemma invalid_lines_are_not_skipped :
  (width (geometry (line "bad" path3 (-1) 2)) <= 0)%Q /\
  (length path1 < 2)%nat /\
  snd (@decomposeAll unitSegments unchecked ∅) !! "bad"%string = Some (0, 1) /\
  (exists s, fst (@decomposeAll unitSegments unchecked ∅) !! 0%nat = Some s /\
     id s = "bad"%string /\
     (value <$> widthAttribute (instanceAttributes s)) = Some [(-1)%Q]) /\
  snd (@decomposeAll unitSegments unchecked ∅) !! "short"%string = Some (2, 1) /\
  snd (@decomposeAll unitSegments unchecked ∅) !! "good"%string = Some (2, 3).
Proof.
  split; [vm_compute; discriminate|]. split; [simpl; lia|].
  split; [vm_compute; reflexivity|].
  split; [eexists; split; [vm_compute; reflexivity|split; reflexivity]|].
  split; vm_compute; reflexivity.
Qed.


(** The ranges of a line of two segments and of the empty line after it. *)
Lemma registered_ranges_disjoint_witness :
  (0 <= 0 /\ 0 <= 1 + 1 /\
   1 < Z.of_nat (length (fst (@decomposeAll unitSegments emptyLast ∅)))) /\
  (forall k, ~ (inRange k (0, 1) /\ inRange k (2, 1))).
Proof.
  split.
  - apply (proj1 (@registered_ranges_disjoint unitSegments emptyLast) "a"%string 0 1).
    vm_compute. reflexivity.
  - apply (proj1 (proj2 (@registered_ranges_disjoint unitSegments emptyLast))
             "a"%string "b"%string (0, 1) (2, 1)).
    + discriminate.
    + vm_compute. reflexivity.
    + vm_compute. reflexivity.
Defined.


(** The line without segments that follows a line of two segments. *)
Lemma degenerate_line_registered_empty_witness :
  ("b"%string ∉ objectPrototypeNames) /\
  @verticesLengthOf unitSegments (line "b" path1 2 0) <= 3 /\
  @lineSegments unitSegments (line "b" path1 2 0) = [] /\
  _idsToInstanceIndices (exampleBuilt emptyLast colourTable colourIndices) !! "b"%string
    = Some (2, 2 - 1) /\
  (exists synchronizer,
     fst (getGeometryInstanceAttributes (Some "b"%string)
            (exampleBuilt emptyLast colourTable colourIndices))
       = Normal (Some (Synchronizer synchronizer)) /\
     firstInstanceIndex synchronizer = 2 /\
     lastInstanceIndex synchronizer = 2 - 1 /\
     properties synchronizer = colourIndices /\
     forall name value,
       snd (synchronizerSet synchronizer name value colourTable) = colourTable) /\
  (forall i,
     fst (getGeometryInstanceAttributes (Some i)
            (exampleBuilt emptyLast colourTable colourIndices)) = Normal None ->
     i ∉ id <$> emptyLast).
Proof.
  assert ("b"%string ∉ objectPrototypeNames) as Hname by not_among.
  assert (@verticesLengthOf unitSegments (line "b" path1 2 0) <= 3) as Hvl
    by (cbv; discriminate).
  split; [exact Hname|]. split; [exact Hvl|].
  destruct (@degenerate_line_registered_empty plainScene unitSegments plainRendering
              0%nat [line "a" path3 2 5] [] (line "b" path1 2 0)
              colourTable colourIndices (not_elem_of_nil _) Hname Hvl)
    as (Hnone & _ & Hindex & Hsync & Hundefined).
  split; [exact Hnone|]. split; [exact Hindex|]. split; [exact Hsync|exact Hundefined].
Defined.

(** The line of width -1 is decomposed and registered, and the line of one
    position after it has the empty range [[2, 1]]. *)
Lemma decomposeAll_skips_no_line_witness :
  (is_Some (snd (@decomposeAll unitSegments unchecked ∅) !! "bad"%string) /\
   fst (@decompose unitSegments (line "bad" path3 (-1) 2) [] ∅)
     = @lineSegments unitSegments (line "bad" path3 (-1) 2) /\
   forall s, s ∈ @lineSegments unitSegments (line "bad" path3 (-1) 2) ->
     id s = "bad"%string /\
     (value <$> widthAttribute (instanceAttributes s)) = Some [(-1)%Q]) /\
  snd (@decomposeAll unitSegments unchecked ∅) !! "short"%string = Some (2, 2 - 1).
Proof.
  split.
  - apply (proj1 (proj2 (@decomposeAll_skips_no_line unitSegments unchecked))
                 (line "bad" path3 (-1) 2)).
    apply list_elem_of_here.
  - apply (proj2 (proj2 (proj2 (@decomposeAll_skips_no_line unitSegments unchecked))
                    [line "bad" path3 (-1) 2] (line "short" path1 2 0)
                    [line "good" path3 2 2] eq_refl
                    ltac:(not_among))).
    cbv. discriminate.
Defined.

(** The width 3, set through the synchronizer of the line of two
    segments. *)
Lemma synchronizer_set_uniform_witness :
  ("a"%string ∉ objectPrototypeNames) /\
  @representable typedArrays UNSIGNED_BYTE 3 /\
  exists synchronizer batchTable',
    fst (getGeometryInstanceAttributes (Some "a"%string)
           (exampleBuilt emptyFirst widthTable widthIndices))
      = Normal (Some (Synchronizer synchronizer)) /\
    synchronizerSet synchronizer "width" (ArgArray [3%Q]) widthTable
      = (Normal tt, batchTable') /\
    (forall j, 0 <= j <= 1 -> getBatchedAttribute batchTable' j 1 = Scalar 3) /\
    @synchronizerGet typedArrays synchronizer "width" batchTable'
      = Normal (Some [3%Q]) /\
    (forall j l, ~ (0 <= j <= 1) ->
       getBatchedAttribute batchTable' j l = getBatchedAttribute widthTable j l) /\
    (forall j l, l <> 1%nat ->
       getBatchedAttribute batchTable' j l = getBatchedAttribute widthTable j l).
Proof.
  assert ("a"%string ∉ objectPrototypeNames) as Hname by not_among.
  split; [exact Hname|]. split; [reflexivity|].
  apply (@synchronizer_set_uniform plainScene unitSegments plainRendering typedArrays
           0%nat emptyFirst widthTable widthIndices "a" 0 1 "width" 1
           {| componentDatatype := UNSIGNED_BYTE; componentsPerAttribute := 1 |} 3%Q).
  - vm_compute. reflexivity.
  - lia.
  - exact Hname.
  - reflexivity.
  - reflexivity.
  - reflexivity.
  - reflexivity.
Defined.

(** * Further properties *)

(** ** Writes to the batch table *)

Lemma batchTable_ext (bt1 bt2 : BatchTable) :
  attributes bt1 = attributes bt2 ->
  (forall key, batchValues bt1 !! key = batchValues bt2 !! key) ->
  bt1 = bt2.
Proof.
  destruct bt1 as [a1 m1], bt2 as [a2 m2]. simpl. intros -> Hm.
  f_equal. apply map_eq. exact Hm.
Qed.

(** The setter changes the table whatever its argument only inside its
    range and on its attribute, and never the declarations. *)
Lemma createSetFunction_frame (first last : Z) (k : nat) (value : SetArgument)
    (batchTable : BatchTable) :
  attributes (snd (createSetFunction first last k value batchTable))
    = attributes batchTable /\
  forall j l, ~ (first <= j <= last /\ l = k) ->
    batchValues (snd (createSetFunction first last k value batchTable)) !! (j, l)
      = batchValues batchTable !! (j, l).
Proof.
  destruct (createSetFunction_table first last k value batchTable) as [Hattrs Hslots].
  split; [exact Hattrs|].
  intros j l Hno. rewrite Hslots.
  destruct (writtenValue value) as [a|]; [|reflexivity].
  destruct (decide (first <= j <= last /\ l = k)); [contradiction | reflexivity].
Qed.

(** Two calls of the setter on the same range and attribute, the second of
    which returns: the table is the one that the second call alone leaves,
    as if the first call had not happened, whatever the first was given
    and whether it returned or raised; and the second call once more
    changes nothing. *)
Theorem createSetFunction_last_write_wins (first last : Z) (k : nat)
    (value1 value2 : SetArgument) (batchTable : BatchTable) :
  fst (createSetFunction first last k value2 batchTable) = Normal tt ->
  createSetFunction first last k value2
      (snd (createSetFunction first last k value1 batchTable))
    = createSetFunction first last k value2 batchTable /\
  createSetFunction first last k value2
      (snd (createSetFunction first last k value2 batchTable))
    = createSetFunction first last k value2 batchTable.
Proof.
  intros Hreturns.
  assert ((exists a2, writtenValue value2 = Some a2) \/
          (writtenValue value2 = None /\ last < first)) as Hwrites.
  { destruct value2 as [| |v].
    - rewrite createSetFunction_invalid in Hreturns by exact I. discriminate.
    - rewrite createSetFunction_invalid in Hreturns by exact I. discriminate.
    - destruct v as [|x [|y rest]].
      + rewrite createSetFunction_invalid in Hreturns by (simpl; lia). discriminate.
      + left. eexists. reflexivity.
      + right. split; [reflexivity|].
        destruct (Z.le_gt_cases first last) as [Hle|Hgt]; [|lia].
        destruct (decide (2 <= length (x :: y :: rest) <= 4)%nat) as [Hvec|Hout].
        * rewrite createSetFunction_vector in Hreturns by assumption. discriminate.
        * rewrite createSetFunction_invalid in Hreturns by (simpl in *; lia).
          discriminate. }
  assert (forall value,
            snd (createSetFunction first last k value2
                   (snd (createSetFunction first last k value batchTable)))
              = snd (createSetFunction first last k value2 batchTable)) as Hsame.
  { intros value. apply batchTable_ext.
    - rewrite !(proj1 (createSetFunction_table _ _ _ _ _)). reflexivity.
    - intros [j l]. rewrite !(proj2 (createSetFunction_table _ _ _ _ _)).
      destruct Hwrites as [[a2 Hw2] | [Hw2 Hempty]]; rewrite Hw2.
      + destruct (decide (first <= j <= last /\ l = k)) as [Hin|Hout]; [reflexivity|].
        destruct (writtenValue value); [|reflexivity].
        destruct (decide (first <= j <= last /\ l = k)); [contradiction|reflexivity].
      + destruct (writtenValue value); [|reflexivity].
        destruct (decide (first <= j <= last /\ l = k)) as [[Hj _]|]; [lia|reflexivity]. }
  split; apply injective_projections;
    solve [apply createSetFunction_completion | apply Hsame].
Qed.

(** The table of colours and widths, whose width is written twice on the
    range [[0, 1]], the first time after a colour that raises. *)
Lemma createSetFunction_last_write_wins_witness :
  fst (createSetFunction 0 1 1 (ArgArray [5%Q]) widthTable) = Normal tt /\
  createSetFunction 0 1 1 (ArgArray [5%Q])
      (snd (createSetFunction 0 1 1 (ArgArray [9%Q]) widthTable))
    = createSetFunction 0 1 1 (ArgArray [5%Q]) widthTable /\
  createSetFunction 0 1 1 (ArgArray [5%Q])
      (snd (createSetFunction 0 1 1 (ArgArray [5%Q]) widthTable))
    = createSetFunction 0 1 1 (ArgArray [5%Q]) widthTable /\
  getBatchedAttribute (snd (createSetFunction 0 1 1 (ArgArray [5%Q]) widthTable)) 1 1
    = Scalar 5.
Proof.
  assert (fst (createSetFunction 0 1 1 (ArgArray [5%Q]) widthTable) = Normal tt)
    as Hreturns by reflexivity.
  split; [exact Hreturns|].
  split; [|split].
  - exact (proj1 (createSetFunction_last_write_wins 0 1 1 (ArgArray [9%Q])
                    (ArgArray [5%Q]) widthTable Hreturns)).
  - exact (proj2 (createSetFunction_last_write_wins 0 1 1 (ArgArray [9%Q])
                    (ArgArray [5%Q]) widthTable Hreturns)).
  - vm_compute. reflexivity.
Defined.

(** Two writes on different attributes, or on ranges that share no index,
    give the same table in either order, whatever the two arguments. *)
Theorem createSetFunction_commute (first1 last1 first2 last2 : Z) (k1 k2 : nat)
    (value1 value2 : SetArgument) (batchTable : BatchTable) :
  k1 <> k2 \/ last1 < first2 \/ last2 < first1 ->
  snd (createSetFunction first2 last2 k2 value2
         (snd (createSetFunction first1 last1 k1 value1 batchTable)))
  = snd (createSetFunction first1 last1 k1 value1
           (snd (createSetFunction first2 last2 k2 value2 batchTable))).
Proof.
  intros Hapart.
  apply batchTable_ext.
  - rewrite !(proj1 (createSetFunction_table _ _ _ _ _)). reflexivity.
  - intros [j l]. rewrite !(proj2 (createSetFunction_table _ _ _ _ _)).
    destruct (writtenValue value1) as [a1|], (writtenValue value2) as [a2|];
      try reflexivity.
    destruct (decide (first1 <= j <= last1 /\ l = k1)) as [[Hj1 Hl1]|Hno1];
      destruct (decide (first2 <= j <= last2 /\ l = k2)) as [[Hj2 Hl2]|Hno2];
      try reflexivity.
    exfalso. subst l. destruct Hapart as [Hk|[Hr|Hr]]; [congruence|lia|lia].
Qed.

(** Two widths on the two halves of the range [[0, 1]]. *)
Lemma createSetFunction_commute_witness :
  snd (createSetFunction 1 1 1 (ArgArray [5%Q])
         (snd (createSetFunction 0 0 1 (ArgArray [9%Q]) widthTable)))
  = snd (createSetFunction 0 0 1 (ArgArray [9%Q])
           (snd (createSetFunction 1 1 1 (ArgArray [5%Q]) widthTable))).
Proof.
  apply (createSetFunction_commute 0 0 1 1 1 1). right. left. lia.
Defined.

(** ** What the getter returns *)

(** The pack step gives an array of the declared arity, whatever the arity
    of the value: the components of the value, converted, cut to the
    declared arity or followed by zeros. *)
Lemma packStep_shape `{ComponentStorage} (dt : ComponentDatatype) (n : nat)
    (a : AttributeValue) :
  a <> Undefined ->
  packStep dt n a
    = Normal (take n (toComponent dt <$> componentsOf a) ++ repeat 0%Q (n - arityOf a)).
Proof.
  intros Hdef. destruct a as [|x|x y|x y z|x y z w]; [congruence| | | |];
    destruct n as [|[|[|[|n]]]]; try reflexivity;
    unfold packStep, pack, typedArrayStore, createTypedArray; simpl;
    rewrite ?take_nil, ?Nat.sub_0_r; reflexivity.
Qed.

(** The getter of an attribute returns an array of exactly the declared
    number of components, whatever the arity of the value in the slot: the
    components of the slot, converted by the typed array, cut to the declared
    arity when the slot holds more and followed by zeros when it holds
    fewer. *)
Theorem createGetFunction_declared_arity `{ComponentStorage}
    (i : Z) (k : nat) (attribute : BatchAttribute) (batchTable : BatchTable) :
  attributes batchTable !! k = Some attribute ->
  getBatchedAttribute batchTable i k <> Undefined ->
  exists result,
    createGetFunction i k batchTable = Normal result /\
    length result = componentsPerAttribute attribute /\
    result = take (componentsPerAttribute attribute)
                  (toComponent (componentDatatype attribute)
                     <$> componentsOf (getBatchedAttribute batchTable i k))
             ++ repeat 0%Q (componentsPerAttribute attribute
                            - arityOf (getBatchedAttribute batchTable i k)).
Proof.
  intros Hattr Hdef. unfold createGetFunction. rewrite Hattr.
  rewrite packStep_shape by exact Hdef.
  eexists. split; [reflexivity|]. split; [|reflexivity].
  rewrite length_app, length_take, length_fmap, repeat_length.
  assert (length (componentsOf (getBatchedAttribute batchTable i k))
          = arityOf (getBatchedAttribute batchTable i k)) as ->.
  { destruct (getBatchedAttribute batchTable i k); reflexivity. }
  lia.
Qed.

(** A slot of two components read through an attribute of four. *)
Lemma createGetFunction_declared_arity_witness :
  exists result,
    @createGetFunction typedArrays 0 0
       (setBatchedAttribute 0 0 (Cartesian2 1 2) colourTable) = Normal result /\
    length result = 4%nat /\
    result = [1; 2; 0; 0]%Q.
Proof.
  destruct (@createGetFunction_declared_arity typedArrays 0 0
              {| componentDatatype := UNSIGNED_BYTE; componentsPerAttribute := 4 |}
              (setBatchedAttribute 0 0 (Cartesian2 1 2) colourTable))
    as (result & Hget & Hlen & Hres).
  - reflexivity.
  - vm_compute. discriminate.
  - exists result. split; [exact Hget|]. split; [exact Hlen|].
    rewrite Hres. vm_compute. reflexivity.
Defined.

(** ** Segments and the index *)

Section ReachFacts.
Context `{GroundGeometry}.

(** An element of a flattened array lies in the block of one line. *)
Lemma lookup_flat_map_lineSegments (geometryInstances : list PolylineInstance) :
  forall k s,
    flat_map lineSegments geometryInstances !! k = Some s ->
    exists l1 g l2 j,
      geometryInstances = l1 ++ g :: l2 /\
      k = (length (flat_map lineSegments l1) + j)%nat /\
      lineSegments g !! j = Some s.
Proof.
  induction geometryInstances as [|g rest IH]; intros k s Hk; [discriminate|].
  simpl in Hk. destruct (decide (k < length (lineSegments g))%nat) as [Hlt|Hge].
  - rewrite lookup_app_l in Hk by exact Hlt.
    exists [], g, rest, k. auto.
  - rewrite lookup_app_r in Hk by lia.
    apply IH in Hk as (l1 & g' & l2 & j & -> & Hpos & Hj).
    exists (g :: l1), g', l2, j. split; [reflexivity|]. split; [|exact Hj].
    simpl. rewrite length_app. lia.
Qed.

Lemma lineSegments_id (g : PolylineInstance) (j : nat) (s : SegmentInstance) :
  lineSegments g !! j = Some s -> id s = id g.
Proof.
  intros Hj. apply lookup_segmentsFrom_geometry in Hj as (i & _ & _ & Hid & _).
  exact Hid.
Qed.

(** After the decomposition of a batch, every index of the range registered
    for an id holds a segment of the array, and that segment carries the
    id: a range addresses segments of its own line only. *)
Theorem registered_range_holds_own_segments
    (geometryInstances : list PolylineInstance) (i : string) (first last : Z) :
  snd (decomposeAll geometryInstances ∅) !! i = Some (first, last) ->
  forall k, first <= k <= last ->
    exists s, fst (decomposeAll geometryInstances ∅) !! Z.to_nat k = Some s /\ id s = i.
Proof.
  intros Hreg k Hk.
  destruct (pass_registered geometryInstances i (first, last) Hreg)
    as (l1 & g & l2 & -> & <- & Hlast).
  rewrite decomposeAll_lookup_last in Hreg by exact Hlast.
  injection Hreg as <- <-.
  rewrite decomposeAll_segments, flat_map_app. simpl.
  unfold SegmentInstance in *.
  rewrite lookup_app_r by lia. rewrite lookup_app_l by lia.
  match goal with
  | |- exists s, ?l !! ?n = Some s /\ _ => assert (is_Some (l !! n)) as [s Hs]
  end.
  { apply lookup_lt_is_Some_2. unfold SegmentInstance in *. lia. }
  exists s. split; [exact Hs|]. exact (lineSegments_id g _ s Hs).
Qed.

(** When the ids of the lines of a batch are pairwise distinct, every
    segment of the array is reachable through the index: the range
    registered for the id it carries contains its position. *)
Theorem distinct_ids_reach_every_segment
    (geometryInstances : list PolylineInstance) :
  NoDup (id <$> geometryInstances) ->
  forall k s,
    fst (decomposeAll geometryInstances ∅) !! k = Some s ->
    exists range,
      snd (decomposeAll geometryInstances ∅) !! id s = Some range /\
      inRange (Z.of_nat k) range.
Proof.
  intros Hdistinct k s Hk. rewrite decomposeAll_segments in Hk.
  apply lookup_flat_map_lineSegments in Hk as (l1 & g & l2 & j & -> & -> & Hj).
  rewrite (lineSegments_id g j s Hj).
  rewrite fmap_app, fmap_cons in Hdistinct.
  apply NoDup_app in Hdistinct as (_ & _ & Hright).
  apply NoDup_cons in Hright as [Hlast _].
  rewrite decomposeAll_lookup_last by exact Hlast.
  eexists. split; [reflexivity|].
  apply lookup_lt_Some in Hj. unfold inRange. simpl. lia.
Qed.

End ReachFacts.

(** The range of the line of two segments that follows an empty line. *)
Lemma registered_range_holds_own_segments_witness :
  snd (@decomposeAll unitSegments emptyFirst ∅) !! "a"%string = Some (0, 1) /\
  forall k, 0 <= k <= 1 ->
    exists s, fst (@decomposeAll unitSegments emptyFirst ∅) !! Z.to_nat k = Some s /\
              id s = "a"%string.
Proof.
  split; [vm_compute; reflexivity|].
  apply (@registered_range_holds_own_segments unitSegments emptyFirst "a" 0 1).
  vm_compute. reflexivity.
Defined.

(** The two ids of the batch that starts with an empty line. *)
Lemma distinct_ids_reach_every_segment_witness :
  NoDup (id <$> emptyFirst) /\
  forall k s,
    fst (@decomposeAll unitSegments emptyFirst ∅) !! k = Some s ->
    exists range,
      snd (@decomposeAll unitSegments emptyFirst ∅) !! id s = Some range /\
      inRange (Z.of_nat k) range.
Proof.
  assert (NoDup (id <$> emptyFirst)) as Hdistinct.
  { apply (bool_decide_unpack _). vm_compute. exact I. }
  split; [exact Hdistinct|].
  apply (@distinct_ids_reach_every_segment unitSegments emptyFirst Hdistinct).
Defined.

(** ** Synchronizers of different ids *)

Section IsolationFacts.
Context `{GroundGeometry} `{ComponentStorage}.

Lemma createGetFunction_depends (i : Z) (k : nat) (bt1 bt2 : BatchTable) :
  attributes bt1 = attributes bt2 ->
  batchValues bt1 !! (i, k) = batchValues bt2 !! (i, k) ->
  createGetFunction i k bt1 = createGetFunction i k bt2.
Proof.
  intros Hattrs Hval. unfold createGetFunction, getBatchedAttribute.
  rewrite Hattrs, Hval. reflexivity.
Qed.

(** After the decomposition of a batch, a write of any argument through the
    synchronizer of one id changes no read through the synchronizer of
    another id whose range is not empty, for any attribute name. *)
Theorem synchronizers_of_distinct_ids_isolated
    (geometryInstances : list PolylineInstance)
    (batchTableAttributeIndices : gmap string nat) (batchTable : BatchTable)
    (writer reader : string) (rangeW rangeR : Z * Z)
    (name name' : string) (value : SetArgument) :
  snd (decomposeAll geometryInstances ∅) !! writer = Some rangeW ->
  snd (decomposeAll geometryInstances ∅) !! reader = Some rangeR ->
  writer <> reader ->
  fst rangeR <= snd rangeR ->
  synchronizerGet
    (newInstanceAttributeSynchronizer (fst rangeR) (snd rangeR) batchTableAttributeIndices)
    name'
    (snd (synchronizerSet
            (newInstanceAttributeSynchronizer (fst rangeW) (snd rangeW)
               batchTableAttributeIndices)
            name value batchTable))
  = synchronizerGet
      (newInstanceAttributeSynchronizer (fst rangeR) (snd rangeR) batchTableAttributeIndices)
      name' batchTable.
Proof.
  intros HW HR Hne Hnonempty.
  pose proof (rangesOk_pass geometryInstances ([], ∅) rangesOk_empty) as [_ Hdisjoint].
  unfold synchronizerGet, synchronizerSet. simpl.
  destruct (batchTableAttributeIndices !! name') as [k'|]; [|reflexivity].
  destruct (batchTableAttributeIndices !! name) as [k|]; [|reflexivity].
  destruct (createSetFunction_frame (fst rangeW) (snd rangeW) k value batchTable)
    as [Hattrs Hout].
  rewrite (createGetFunction_depends (fst rangeR) k' _ batchTable); [reflexivity|exact Hattrs|].
  apply Hout. intros [Hin _].
  apply (Hdisjoint writer reader rangeW rangeR Hne HW HR (fst rangeR)).
  unfold inRange. split; [exact Hin|lia].
Qed.

End IsolationFacts.


(** A width written through the last line of the batch, read through the
    line before it: the read returns the width 2 before and after. *)
Lemma synchronizers_of_distinct_ids_isolated_witness :
  snd (@decomposeAll unitSegments repeated ∅) !! "a"%string = Some (3, 3) /\
  snd (@decomposeAll unitSegments repeated ∅) !! "b"%string = Some (2, 2) /\
  @synchronizerGet typedArrays (newInstanceAttributeSynchronizer 2 2 widthIndices) "width"
    (snd (synchronizerSet (newInstanceAttributeSynchronizer 3 3 widthIndices)
            "width" (ArgArray [9%Q]) widthTable))
  = @synchronizerGet typedArrays (newInstanceAttributeSynchronizer 2 2 widthIndices)
      "width" widthTable /\
  @synchronizerGet typedArrays (newInstanceAttributeSynchronizer 2 2 widthIndices)
      "width" widthTable
  = Normal (Some [2%Q]) /\
  @synchronizerGet typedArrays (newInstanceAttributeSynchronizer 3 3 widthIndices) "width"
    (snd (synchronizerSet (newInstanceAttributeSynchronizer 3 3 widthIndices)
            "width" (ArgArray [9%Q]) widthTable))
  = Normal (Some [9%Q]).
Proof.
  split; [vm_compute; reflexivity|]. split; [vm_compute; reflexivity|].
  split; [|split; vm_compute; reflexivity].
  apply (@synchronizers_of_distinct_ids_isolated unitSegments typedArrays repeated
           widthIndices widthTable "a" "b" (3, 3) (2, 2) "width" "width").
  - vm_compute. reflexivity.
  - vm_compute. reflexivity.
  - discriminate.
  - simpl. lia.
Defined.

(** ** The primitive as an object *)

Section ObjectFacts.
Context `{Rendering}.

(** [getGeometryInstanceAttributes] raises a ReferenceError, for the name
    [DeveloperError] that its guards evaluate and that the module does not
    bind, and leaves the primitive as it was: without an id, whatever the
    state; for any id on a primitive that was only constructed; and for
    any id as long as the inner primitive has no batch table, also when
    the id is registered. *)
Theorem getGeometryInstanceAttributes_usage_errors
    (this : GroundPolylinePrimitive) (options : option Options) (i : string) :
  getGeometryInstanceAttributes None this
    = (Throw (ReferenceError "DeveloperError"), this) /\
  getGeometryInstanceAttributes (Some i) (newGroundPolylinePrimitive options)
    = (Throw (ReferenceError "DeveloperError"), newGroundPolylinePrimitive options) /\
  (forall primitive,
     _primitive this = Some primitive -> _batchTable primitive = None ->
     getGeometryInstanceAttributes (Some i) this
       = (Throw (ReferenceError "DeveloperError"), this)).
Proof.
  split; [reflexivity|]. split; [reflexivity|].
  intros primitive Hprim Htable. unfold getGeometryInstanceAttributes.
  rewrite Hprim, Htable. reflexivity.
Qed.




(** [update] on a primitive that has its inner primitive. *)
Lemma update_with_primitive (frameState : FrameState)
    (this : GroundPolylinePrimitive) (primitive : Primitive) :
  _primitive this = Some primitive ->
  update frameState this
    = setPrimitive
        (Some (primitiveUpdate frameState
                 (withAppearanceAndShow (_appearance this) (show this) primitive)))
        this.
Proof.
  intros Hprim. unfold update. rewrite Hprim.
  destruct (polylineGeometryInstances this); rewrite Hprim; reflexivity.
Qed.

(** [update] decomposes at most once.  Once a primitive that has instances
    or an inner primitive was updated, it has an inner primitive, and the
    next [update], whatever [polylineGeometryInstances] has been replaced
    by, leaves the index, the cache and the primitive options as they are:
    it gives the inner primitive the current appearance and [show] and
    runs its update, and nothing else. *)
Theorem update_decomposes_once (frameState frameState' : FrameState)
    (this : GroundPolylinePrimitive)
    (replacement : option (PolylineInstance + list PolylineInstance)) :
  is_Some (polylineGeometryInstances this) \/ is_Some (_primitive this) ->
  let first := update frameState this in
  let second := update frameState' (setPolylineGeometryInstances replacement first) in
  exists primitive,
    _primitive first = Some primitive /\
    second
      = setPrimitive
          (Some (primitiveUpdate frameState'
                   (withAppearanceAndShow (_appearance first) (show first) primitive)))
          (setPolylineGeometryInstances replacement first) /\
    _idsToInstanceIndices second = _idsToInstanceIndices first /\
    _attributeSynchronizerCache second = _attributeSynchronizerCache first /\
    _primitiveOptions second = _primitiveOptions first.
Proof.
  intros Hsome first second.
  assert (exists primitive, _primitive first = Some primitive) as [primitive Hprim].
  { unfold first, update.
    destruct (_primitive this) as [p|] eqn:Hp.
    - rewrite Hp. simpl. eauto.
    - destruct (polylineGeometryInstances this) as [x|] eqn:Hx.
      + unfold createPrimitive.
        destruct (decomposeAll (asArray x) (_idsToInstanceIndices this)) as [segs idx].
        simpl. eauto.
      + destruct Hsome as [[x Hx']|[p Hp']]; discriminate. }
  exists primitive. split; [exact Hprim|].
  assert (second
          = setPrimitive
              (Some (primitiveUpdate frameState'
                       (withAppearanceAndShow (_appearance first) (show first) primitive)))
              (setPolylineGeometryInstances replacement first)) as Hsecond.
  { exact (update_with_primitive frameState'
             (setPolylineGeometryInstances replacement first) primitive Hprim). }
  split; [exact Hsecond|]. rewrite Hsecond. repeat split; reflexivity.
Qed.

(** What [update] does to the inner primitive.  Without instances and
    without inner primitive it does nothing.  Otherwise the inner
    primitive that it leaves is the result of the inner update on a
    primitive that has the appearance and the [show] of the primitive:
    the one it had, with its segments and its batch table, or, when there
    was none, a new one on the segments of all the instances, decomposed
    into the index, without batch table. *)
Theorem update_forwards_appearance_and_show (frameState : FrameState)
    (this : GroundPolylinePrimitive) :
  (polylineGeometryInstances this = None -> _primitive this = None ->
   update frameState this = this) /\
  (is_Some (polylineGeometryInstances this) \/ is_Some (_primitive this) ->
   exists primitive,
     _primitive (update frameState this) = Some (primitiveUpdate frameState primitive) /\
     appearance primitive = Some (_appearance this) /\
     primitiveShow primitive = show this /\
     _appearance (update frameState this) = _appearance this /\
     show (update frameState this) = show this /\
     (forall before, _primitive this = Some before ->
        geometryInstances primitive = geometryInstances before /\
        _batchTable primitive = _batchTable before /\
        _batchTableAttributeIndices primitive = _batchTableAttributeIndices before /\
        _idsToInstanceIndices (update frameState this) = _idsToInstanceIndices this) /\
     (forall instances,
        _primitive this = None -> polylineGeometryInstances this = Some instances ->
        geometryInstances primitive
          = Some (fst (decomposeAll (asArray instances) (_idsToInstanceIndices this))) /\
        _batchTable primitive = None /\
        _idsToInstanceIndices (update frameState this)
          = snd (decomposeAll (asArray instances) (_idsToInstanceIndices this)))).
Proof.
  split.
  { intros Hnone Hprim. unfold update. rewrite Hprim, Hnone. reflexivity. }
  intros Hsome.
  destruct (_primitive this) as [before|] eqn:Hprim.
  - rewrite (update_with_primitive frameState this before Hprim).
    eexists. split; [reflexivity|]. simpl.
    split; [reflexivity|]. split; [reflexivity|]. split; [reflexivity|].
    split; [reflexivity|]. split.
    + intros before' Heq. injection Heq as <-. auto.
    + intros instances Heq. discriminate.
  - destruct (polylineGeometryInstances this) as [instances|] eqn:Hinstances.
    + unfold update. rewrite Hprim, Hinstances. unfold createPrimitive.
      destruct (decomposeAll (asArray instances) (_idsToInstanceIndices this))
        as [segs idx] eqn:Hall.
      simpl. eexists. split; [reflexivity|]. simpl.
      split; [reflexivity|]. split; [reflexivity|]. split; [reflexivity|].
      split; [reflexivity|]. split.
      * intros before Heq. discriminate.
      * intros instances' _ Heq. injection Heq as <-. rewrite Hall. auto.
    + destruct Hsome as [[x Hx]|[p Hp]]; discriminate.
Qed.


End ObjectFacts.


(** A primitive updated on one batch, then hidden and given another: the
    index still describes the first batch, and the inner primitive is
    hidden. *)
Lemma update_decomposes_once_witness :
  exists primitive,
    _primitive (@update plainScene unitSegments plainRendering 0%nat
                  (newGroundPolylinePrimitive (Some (batchOptions emptyFirst))))
      = Some primitive /\
    _idsToInstanceIndices
        (@update plainScene unitSegments plainRendering 1%nat
           (setPolylineGeometryInstances (Some (inr emptyLast))
              (@update plainScene unitSegments plainRendering 0%nat
                 (newGroundPolylinePrimitive (Some (batchOptions emptyFirst))))))
      !! "a"%string
      = Some (0, 1) /\
    snd (@decomposeAll unitSegments emptyLast ∅) !! "b"%string = Some (2, 1) /\
    _idsToInstanceIndices
        (@update plainScene unitSegments plainRendering 1%nat
           (setPolylineGeometryInstances (Some (inr emptyLast))
              (@update plainScene unitSegments plainRendering 0%nat
                 (newGroundPolylinePrimitive (Some (batchOptions emptyFirst))))))
      !! "b"%string
      = Some (0, -1).
Proof.
  destruct (@update_decomposes_once plainScene unitSegments plainRendering
              0%nat 1%nat (newGroundPolylinePrimitive (Some (batchOptions emptyFirst)))
              (Some (inr emptyLast)))
    as (primitive & Hprim & _ & Hindex & _).
  { left. simpl. eauto. }
  exists primitive. split; [exact Hprim|].
  rewrite Hindex. repeat split; vm_compute; reflexivity.
Defined.

(** A primitive on a batch, hidden before its first update: the inner
    primitive is created hidden, on the four segments of the batch. *)
Lemma update_forwards_appearance_and_show_witness :
  exists primitive,
    _primitive (@update plainScene unitSegments plainRendering 0%nat
                  (setShow false
                     (newGroundPolylinePrimitive (Some (batchOptions repeated)))))
      = Some primitive /\
    primitiveShow primitive = false /\
    appearance primitive
      = Some (@generatePolylineAppearance plainScene "Color"%string) /\
    (length <$> geometryInstances primitive) = Some 4%nat.
Proof.
  destruct (proj2 (@update_forwards_appearance_and_show plainScene unitSegments
                     plainRendering 0%nat
                     (setShow false
                        (newGroundPolylinePrimitive (Some (batchOptions repeated))))))
    as (primitive & Hprim & Happearance & Hshow & _ & _ & _ & Hnew).
  { left. simpl. eauto. }
  destruct (Hnew (inr repeated) eq_refl eq_refl) as (Hsegments & _ & _).
  exists primitive. split; [exact Hprim|]. split; [exact Hshow|].
  split; [exact Happearance|]. rewrite Hsegments. vm_compute. reflexivity.
Defined.

(** ** The point cloud stream *)

Module PointCloudStreamFacts.
Import PointCloudStream.

Section ArrayFacts.
Context {A : Type}.

Lemma arraySet_length (array : list (option A)) (i : nat) (x : A) :
  length (arraySet array i x) = Nat.max (length array) (S i).
Proof.
  unfold arraySet. destruct (Nat.ltb_spec i (length array)) as [Hlt|Hge].
  - rewrite length_insert. lia.
  - rewrite !length_app, length_replicate. simpl. lia.
Qed.

Lemma arraySet_lookup (array : list (option A)) (i j : nat) (x : A) :
  mjoin (arraySet array i x !! j) = if decide (j = i) then Some x else mjoin (array !! j).
Proof.
  unfold arraySet. destruct (Nat.ltb_spec i (length array)) as [Hlt|Hge].
  - destruct (decide (j = i)) as [->|Hne].
    + rewrite list_lookup_insert_eq by exact Hlt. reflexivity.
    + rewrite list_lookup_insert_ne by congruence. reflexivity.
  - destruct (decide (j = i)) as [->|Hne].
    + rewrite lookup_app_r by lia. rewrite lookup_app_r by (rewrite length_replicate; lia).
      rewrite length_replicate.
      replace (i - length array - (i - length array))%nat with O by lia.
      reflexivity.
    + destruct (decide (j < length array)%nat) as [Hin|Hout].
      * rewrite lookup_app_l by exact Hin. reflexivity.
      * rewrite (lookup_ge_None_2 array j) by lia. rewrite lookup_app_r by lia.
        destruct (decide (j < i)%nat) as [Hhole|Hpast].
        -- rewrite lookup_app_l by (rewrite length_replicate; lia).
           rewrite lookup_replicate_2 by lia. reflexivity.
        -- rewrite lookup_app_r by (rewrite length_replicate; lia).
           rewrite length_replicate. rewrite lookup_ge_None_2 by (simpl; lia). reflexivity.
Qed.

Lemma arrayGet_Some_guards (array : list (option A)) (index : Z) (x : A) :
  arrayGet array index = Some x ->
  0 <= index < Z.of_nat (length array) /\
  Nat.eqb (length array) 0 = false /\
  ((index <? 0) || (index >? Z.of_nat (length array)))%bool = false.
Proof.
  unfold arrayGet. destruct (Z.ltb_spec index 0) as [Hneg|Hpos]; [discriminate|].
  intros Hget.
  destruct (array !! Z.to_nat index) as [o|] eqn:Hlookup; [|discriminate].
  apply lookup_lt_Some in Hlookup.
  assert (index < Z.of_nat (length array)) by lia.
  split; [lia|]. split.
  - apply Nat.eqb_neq. lia.
  - simpl. destruct (Z.gtb_spec index (Z.of_nat (length array))); [lia|reflexivity].
Qed.

End ArrayFacts.

Section StreamFacts.
Context `{Carriers} `{!Collaborators}.

(** [addFrame] as an insertion: the selected position then holds the new
    frame, as constructed; every other position reads as before; the array
    has grown to hold the position when it was past its end, the positions
    in between staying undefined; no other field of the stream changes. *)
Theorem addFrame_lookup (i : nat) (arrayBuffer : ArrayBuffer) (this : Stream) :
  arrayGet (_frames (addFrame i arrayBuffer this)) (Z.of_nat i)
    = Some {| Frame.arrayBuffer := arrayBuffer; Frame.parameters := None |} /\
  (forall j, j <> Z.of_nat i ->
     arrayGet (_frames (addFrame i arrayBuffer this)) j = arrayGet (_frames this) j) /\
  length (_frames (addFrame i arrayBuffer this)) = Nat.max (length (_frames this)) (S i) /\
  setFrames (_frames this) (addFrame i arrayBuffer this) = this.
Proof.
  split; [|split; [|split]].
  - unfold arrayGet, addFrame. simpl.
    destruct (Z.ltb_spec (Z.of_nat i) 0) as [Hneg|_]; [lia|].
    rewrite Nat2Z.id, arraySet_lookup. destruct (decide (i = i)); [reflexivity|congruence].
  - intros j Hj. unfold arrayGet, addFrame. simpl.
    destruct (Z.ltb_spec j 0) as [Hneg|Hpos]; [reflexivity|].
    rewrite arraySet_lookup. destruct (decide (Z.to_nat j = i)); [lia|reflexivity].
  - unfold addFrame. simpl. apply arraySet_length.
  - destruct this. reflexivity.
Qed.

(** [update] leaves the stream and the frame state exactly as they are when
    the scene is morphing, when the stream is hidden, or when the array has
    no frame at [index]: an empty array, a negative index, a hole, an index
    past the end, and also the index equal to the length, which the range
    test of the source lets through. *)
Theorem update_without_frame_changes_nothing
    (frameState : FrameState) (this : Stream) :
  mode frameState = MORPHING \/ show this = false \/
    arrayGet (_frames this) (index this) = None ->
  update frameState this = (this, frameState).
Proof.
  intros Hcases. unfold update.
  destruct (mode frameState) eqn:Hmode; try reflexivity;
    (destruct (show this) eqn:Hshow; simpl; [|reflexivity]);
    (destruct (Nat.eqb (length (_frames this)) 0); [reflexivity|]);
    (destruct ((index this <? 0) || (index this >? Z.of_nat (length (_frames this))))%bool;
       [reflexivity|]);
    (destruct Hcases as [Hm|[Hs|Hnone]];
       [discriminate|discriminate|rewrite Hnone; reflexivity]).
Qed.

Lemma mathMax_nonnegative (x : Q) : (0 <= mathMax x 0)%Q.
Proof.
  unfold mathMax. destruct (Qle_bool x 0) eqn:Hle; [apply Qle_refl|].
  apply Qlt_le_weak, Qnot_le_lt. intros Hx.
  apply Qle_bool_iff in Hx. congruence.
Qed.

(** What [update] does once it has a frame. *)
Lemma update_selected (frameState : FrameState) (this : Stream) (frame : Frame.t) :
  mode frameState <> MORPHING ->
  show this = true ->
  arrayGet (_frames this) (index this) = Some frame ->
  let result := fst (update frameState this) in
  let isClipped := match clippingPlanes this with
                   | Some planes => enabled planes
                   | None => false
                   end in
  let updated :=
    {| Frame.arrayBuffer := Frame.arrayBuffer frame;
       Frame.parameters :=
         Some {| Frame.style := style this;
                 Frame.modelMatrix := modelMatrix this;
                 Frame.time :=
                   mathMax (secondsDifference (time frameState)
                              (default (time frameState) (_loadTimestamp this)) * 1000)%Q
                           0%Q;
                 Frame.shadows := shadows this;
                 Frame.clippingPlanes := clippingPlanes result;
                 Frame.isClipped := isClipped;
                 Frame.clippingPlanesDirty :=
                   negb (_clippingPlanesState this =? _clippingPlanesState result);
                 Frame.attenuation := attenuation (pointCloudShading this);
                 Frame.geometricError := 0%Q;
                 Frame.geometricErrorScale := geometricErrorScale (pointCloudShading this);
                 Frame.maximumAttenuation :=
                   default 10%Q (maximumAttenuation (pointCloudShading this)) |} |} in
  _frames result = <[Z.to_nat (index this) := Some updated]> (_frames this) /\
  (pointCloudShading result = pointCloudShading this /\ style result = style this /\
   shadows result = shadows this /\ modelMatrix result = modelMatrix this /\
   show result = show this /\ index result = index this) /\
  _pickId result = Some (default (createPickId frameState) (_pickId this)) /\
  _loadTimestamp result = Some (default (time frameState) (_loadTimestamp this)) /\
  (clippingPlanes result
     = if isClipped
       then option_map (fun planes => clippingPlanesUpdate planes frameState)
                       (clippingPlanes this)
       else clippingPlanes this) /\
  (_clippingPlanesState result
     = if isClipped
       then match clippingPlanes result with
            | Some planes => clippingPlanesState planes
            | None => 0
            end
       else 0) /\
  (let after := pointCloudUpdate updated frameState in
   (_pointCloudEyeDomeLighting result, snd (update frameState this))
     = if (attenuation (pointCloudShading this)
           && eyeDomeLighting (pointCloudShading this)
           && (Z.of_nat (length (commandList after))
               - Z.of_nat (length (commandList frameState)) >? 0))%bool
       then eyeDomeLightingUpdate (_pointCloudEyeDomeLighting this) after
                                  (length (commandList frameState)) (pointCloudShading this)
       else (_pointCloudEyeDomeLighting this, after)).
Proof.
  intros Hmode Hshow Hget.
  destruct (arrayGet_Some_guards _ _ _ Hget) as (_ & Hlen & Hguard).
  unfold update.
  destruct (mode frameState) eqn:Hm; [congruence| | |];
    rewrite Hshow, Hlen, Hguard, Hget; simpl;
    (destruct (_pickId this), (_loadTimestamp this),
              (maximumAttenuation (pointCloudShading this)); simpl;
     match goal with
     | |- context [let '(_, _) := ?c in _] => destruct c as [lighting after] eqn:Hedl
     end; simpl; rewrite <- Hedl; repeat split; reflexivity).
Qed.

Lemma arrayGet_insert_eq (frames : list (option Frame.t)) (index : Z) (x : Frame.t) :
  0 <= index < Z.of_nat (length frames) ->
  arrayGet (<[Z.to_nat index := Some x]> frames) index = Some x.
Proof.
  intros Hrange. unfold arrayGet.
  destruct (Z.ltb_spec index 0) as [Hneg|_]; [lia|].
  rewrite list_lookup_insert_eq by lia. reflexivity.
Qed.

Lemma arrayGet_insert_ne (frames : list (option Frame.t)) (index j : Z) (x : Frame.t) :
  0 <= index -> j <> index ->
  arrayGet (<[Z.to_nat index := Some x]> frames) j = arrayGet frames j.
Proof.
  intros Hpos Hne. unfold arrayGet.
  destruct (Z.ltb_spec j 0) as [Hneg|Hj]; [reflexivity|].
  rewrite list_lookup_insert_ne by lia. reflexivity.
Qed.

(** Either [update] changes nothing, or it has a frame. *)
Lemma update_cases (frameState : FrameState) (this : Stream) :
  update frameState this = (this, frameState) \/
  (mode frameState <> MORPHING /\ show this = true /\
   exists frame, arrayGet (_frames this) (index this) = Some frame).
Proof.
  destruct (arrayGet (_frames this) (index this)) as [frame|] eqn:Hget.
  - destruct (show this) eqn:Hshow.
    + destruct (mode frameState) eqn:Hmode;
        [left; unfold update; rewrite Hmode; reflexivity| | |];
        (right; split; [discriminate|]; split; [reflexivity|]; eauto).
    + left. unfold update. rewrite Hshow.
      destruct (mode frameState); reflexivity.
  - left. unfold update.
    destruct (mode frameState); try reflexivity;
      (destruct (show this); simpl; [|reflexivity]);
      (destruct (Nat.eqb (length (_frames this)) 0); [reflexivity|]);
      (destruct ((index this <? 0) || (index this >? Z.of_nat (length (_frames this))))%bool;
         [reflexivity|]);
      rewrite Hget; reflexivity.
Qed.

(** When the scene is not morphing and the stream is shown, the frame at
    [index] receives the parameters of the stream: its style, model matrix
    and shadows, the attenuation and the geometric error scale of its
    shading, a geometric error of 0, a maximum attenuation of 10 when the
    shading defines none, and a time since load that is never negative,
    whatever the two dates are; its buffer is kept. *)
Theorem update_forwards_to_selected_frame
    (frameState : FrameState) (this : Stream) (frame : Frame.t) :
  mode frameState <> MORPHING ->
  show this = true ->
  arrayGet (_frames this) (index this) = Some frame ->
  exists parameters,
    arrayGet (_frames (fst (update frameState this))) (index this)
      = Some {| Frame.arrayBuffer := Frame.arrayBuffer frame;
                Frame.parameters := Some parameters |} /\
    Frame.style parameters = style this /\
    Frame.modelMatrix parameters = modelMatrix this /\
    Frame.shadows parameters = shadows this /\
    Frame.attenuation parameters = attenuation (pointCloudShading this) /\
    Frame.geometricErrorScale parameters = geometricErrorScale (pointCloudShading this) /\
    Frame.geometricError parameters = 0%Q /\
    Frame.maximumAttenuation parameters
      = default 10%Q (maximumAttenuation (pointCloudShading this)) /\
    (0 <= Frame.time parameters)%Q /\
    (_loadTimestamp this = None ->
     Frame.time parameters
       = mathMax (secondsDifference (time frameState) (time frameState) * 1000)%Q 0%Q).
Proof.
  intros Hmode Hshow Hget.
  destruct (update_selected frameState this frame Hmode Hshow Hget) as (Hframes & _).
  destruct (arrayGet_Some_guards _ _ _ Hget) as (Hrange & _).
  eexists. split.
  { rewrite Hframes. apply arrayGet_insert_eq. exact Hrange. }
  simpl. repeat split; try reflexivity.
  - apply mathMax_nonnegative.
  - intros ->. reflexivity.
Qed.

(** [update] never changes the shading, the style, the shadows, the model
    matrix, [show] or [index] of the stream, nor the length of the array of
    frames, nor any frame other than the one at [index]. *)
Theorem update_touches_selected_frame_only (frameState : FrameState) (this : Stream) :
  let result := fst (update frameState this) in
  pointCloudShading result = pointCloudShading this /\
  style result = style this /\
  shadows result = shadows this /\
  modelMatrix result = modelMatrix this /\
  show result = show this /\
  index result = index this /\
  length (_frames result) = length (_frames this) /\
  (forall j, j <> index this ->
     arrayGet (_frames result) j = arrayGet (_frames this) j).
Proof.
  intros result. unfold result.
  destruct (update_cases frameState this) as [->|(Hmode & Hshow & frame & Hget)].
  - simpl. repeat split; reflexivity.
  - destruct (update_selected frameState this frame Hmode Hshow Hget)
      as (Hframes & (H1 & H2 & H3 & H4 & H5 & H6) & _).
    destruct (arrayGet_Some_guards _ _ _ Hget) as (Hrange & _).
    repeat split; try assumption.
    + rewrite Hframes. apply length_insert.
    + intros j Hj. rewrite Hframes. apply arrayGet_insert_ne; [lia|exact Hj].
Qed.

(** Over any run of updates, a pick id and a load timestamp, once defined,
    are never replaced: the pick id is created once, and the time since
    load of every later frame is measured from the first one. *)
Theorem updates_keep_pickId_and_loadTimestamp
    (frameStates : list FrameState) (this : Stream) :
  (forall pickId, _pickId this = Some pickId ->
     _pickId (updates frameStates this) = Some pickId) /\
  (forall loadTimestamp, _loadTimestamp this = Some loadTimestamp ->
     _loadTimestamp (updates frameStates this) = Some loadTimestamp).
Proof.
  assert (forall frameState stream,
            (forall pickId, _pickId stream = Some pickId ->
               _pickId (fst (update frameState stream)) = Some pickId) /\
            (forall t, _loadTimestamp stream = Some t ->
               _loadTimestamp (fst (update frameState stream)) = Some t)) as Hstep.
  { intros frameState stream.
    destruct (update_cases frameState stream) as [->|(Hmode & Hshow & frame & Hget)].
    - split; intros x Hx; exact Hx.
    - destruct (update_selected frameState stream frame Hmode Hshow Hget)
        as (_ & _ & Hpick & Hload & _).
      split; intros x Hx; [rewrite Hpick, Hx|rewrite Hload, Hx]; reflexivity. }
  revert this. induction frameStates as [|frameState rest IH]; intros this.
  - split; intros x Hx; exact Hx.
  - unfold updates. simpl. fold (updates rest (fst (update frameState this))).
    destruct (Hstep frameState this) as [Hpick Hload].
    destruct (IH (fst (update frameState this))) as [IHpick IHload].
    split; intros x Hx; [apply IHpick, Hpick, Hx|apply IHload, Hload, Hx].
Qed.

(** The eye dome lighting is updated only for an attenuated shading with eye
    dome lighting whose frame has added commands: when either flag of the
    shading is off, or when the update of the selected frame, with the
    parameters that the stream has given it, adds no command to the list,
    [update] leaves the eye dome lighting as it is. *)
Theorem update_keeps_eyeDomeLighting (frameState : FrameState) (this : Stream) :
  attenuation (pointCloudShading this) = false \/
  eyeDomeLighting (pointCloudShading this) = false \/
  (forall frame,
     arrayGet (_frames (fst (update frameState this))) (index this) = Some frame ->
     (length (commandList (pointCloudUpdate frame frameState))
      <= length (commandList frameState))%nat) ->
  _pointCloudEyeDomeLighting (fst (update frameState this))
    = _pointCloudEyeDomeLighting this.
Proof.
  intros Hoff.
  destruct (update_cases frameState this) as [->|(Hmode & Hshow & frame & Hget)];
    [reflexivity|].
  destruct (update_selected frameState this frame Hmode Hshow Hget)
    as (Hframes & _ & _ & _ & _ & _ & Hedl).
  simpl in Hedl.
  match type of Hedl with
  | _ = (if ?c then _ else _) => assert (c = false) as Hcond
  end.
  { destruct Hoff as [Ha|[He|Hnone]].
    - rewrite Ha. reflexivity.
    - rewrite He. apply andb_false_intro1, andb_false_r.
    - apply andb_false_intro2.
      match goal with |- (?x >? 0) = false => destruct (Z.gtb_spec x 0) as [Hgt|]; [|reflexivity] end.
      match type of Hgt with
      | context [pointCloudUpdate ?f frameState] => specialize (Hnone f)
      end.
      assert (0 <= index this < Z.of_nat (length (_frames this))) as Hrange.
      { unfold arrayGet in Hget.
        destruct (Z.ltb_spec (index this) 0) as [Hneg|Hpos]; [discriminate|].
        destruct (_frames this !! Z.to_nat (index this)) as [slot|] eqn:Hslot;
          [|discriminate].
        apply lookup_lt_Some in Hslot. lia. }
      rewrite Hframes, (arrayGet_insert_eq _ _ _ Hrange) in Hnone.
      specialize (Hnone eq_refl). lia. }
  rewrite Hcond in Hedl. injection Hedl as Hl _. exact Hl.
Qed.

(** A stream without clipping planes, or whose clipping planes are disabled:
    an update that has a frame leaves the clipping planes as they are and
    the stored clipping state at 0, so that the frame of the next update is
    not marked dirty and not marked clipped. *)
Theorem update_unclipped_not_dirty_twice
    (frameState frameState' : FrameState) (this : Stream) (frame : Frame.t) :
  match clippingPlanes this with
  | Some planes => enabled planes = false
  | None => True
  end ->
  mode frameState <> MORPHING ->
  mode frameState' <> MORPHING ->
  show this = true ->
  arrayGet (_frames this) (index this) = Some frame ->
  let first := fst (update frameState this) in
  clippingPlanes first = clippingPlanes this /\
  _clippingPlanesState first = 0 /\
  exists parameters,
    arrayGet (_frames (fst (update frameState' first))) (index this)
      = Some {| Frame.arrayBuffer := Frame.arrayBuffer frame;
                Frame.parameters := Some parameters |} /\
    Frame.clippingPlanesDirty parameters = false /\
    Frame.isClipped parameters = false.
Proof.
  intros Hunclipped Hmode Hmode' Hshow Hget first.
  assert (match clippingPlanes this with
          | Some planes => enabled planes
          | None => false
          end = false) as Hclip.
  { destruct (clippingPlanes this); [exact Hunclipped|reflexivity]. }
  destruct (update_selected frameState this frame Hmode Hshow Hget)
    as (Hframes & (_ & _ & _ & _ & Hshow1 & Hindex1) & _ & _ & Hplanes & Hstate & _).
  fold first in Hframes, Hshow1, Hindex1, Hplanes, Hstate.
  rewrite Hclip in Hplanes, Hstate.
  destruct (arrayGet_Some_guards _ _ _ Hget) as (Hrange & _).
  split; [exact Hplanes|]. split; [exact Hstate|].
  assert (exists frame1, arrayGet (_frames first) (index first) = Some frame1 /\
                         Frame.arrayBuffer frame1 = Frame.arrayBuffer frame)
    as (frame1 & Hget1 & Hbuffer).
  { eexists. rewrite Hindex1, Hframes. split; [apply arrayGet_insert_eq; exact Hrange|].
    reflexivity. }
  assert (show first = true) as Hshown by (rewrite Hshow1; exact Hshow).
  destruct (update_selected frameState' first frame1 Hmode' Hshown Hget1)
    as (Hframes2 & _ & _ & _ & _ & Hstate2 & _).
  destruct (arrayGet_Some_guards _ _ _ Hget1) as (Hrange1 & _).
  eexists. split.
  { rewrite Hframes2, <- Hindex1, Hbuffer. apply arrayGet_insert_eq. exact Hrange1. }
  simpl. rewrite Hplanes, Hclip in *. rewrite Hstate2, Hstate. split; reflexivity.
Qed.

(** A frame added at the selected index is the one the next update reaches:
    after [addFrame] at [index], an update of a shown stream outside morphing
    leaves at that index the frame of the new buffer, with parameters. *)
Theorem addFrame_then_update_reaches_frame
    (i : nat) (arrayBuffer : ArrayBuffer) (frameState : FrameState) (this : Stream) :
  mode frameState <> MORPHING ->
  show this = true ->
  index this = Z.of_nat i ->
  exists parameters,
    arrayGet (_frames (fst (update frameState (addFrame i arrayBuffer this)))) (Z.of_nat i)
      = Some {| Frame.arrayBuffer := arrayBuffer; Frame.parameters := Some parameters |}.
Proof.
  intros Hmode Hshow Hindex.
  assert (arrayGet (_frames (addFrame i arrayBuffer this)) (index (addFrame i arrayBuffer this))
          = Some {| Frame.arrayBuffer := arrayBuffer; Frame.parameters := None |}) as Hget.
  { unfold addFrame, arrayGet. simpl. rewrite Hindex.
    destruct (Z.ltb_spec (Z.of_nat i) 0) as [Hneg|_]; [lia|].
    rewrite Nat2Z.id, arraySet_lookup. destruct (decide (i = i)); [reflexivity|congruence]. }
  destruct (update_selected frameState (addFrame i arrayBuffer this) _ Hmode Hshow Hget)
    as (Hframes & _).
  destruct (arrayGet_Some_guards _ _ _ Hget) as (Hrange & _).
  eexists. rewrite Hframes. simpl. rewrite Hindex. simpl.
  apply arrayGet_insert_eq. simpl in Hrange. rewrite Hindex in Hrange. exact Hrange.
Qed.

(** A stream as constructed selects index 0 of an empty array: an update
    changes nothing, also after frames were added at later indices only,
    index 0 being a hole; once a frame is added at index 0, the first update
    outside morphing creates the pick id and takes the time of the frame
    state as load timestamp. *)
Theorem newStream_first_update
    (shading : PointCloudShading) (style : Style)
    (planes : option ClippingPlaneCollection) (shadows : option ShadowMode)
    (frameState : FrameState) (i : nat) (arrayBuffer : ArrayBuffer) :
  let stream := newStream shading style planes shadows in
  update frameState stream = (stream, frameState) /\
  update frameState (addFrame (S i) arrayBuffer stream)
    = (addFrame (S i) arrayBuffer stream, frameState) /\
  (mode frameState <> MORPHING ->
   _pickId (fst (update frameState (addFrame 0 arrayBuffer stream)))
     = Some (createPickId frameState) /\
   _loadTimestamp (fst (update frameState (addFrame 0 arrayBuffer stream)))
     = Some (time frameState)).
Proof.
  intros stream. split; [|split].
  - destruct (update_cases frameState stream) as [Hidle|(_ & _ & frame & Hget)];
      [exact Hidle|discriminate].
  - destruct (update_cases frameState (addFrame (S i) arrayBuffer stream))
      as [Hidle|(_ & _ & frame & Hget)]; [exact Hidle|].
    unfold arrayGet, addFrame in Hget. simpl in Hget. discriminate.
  - intros Hmode.
    destruct (update_selected frameState (addFrame 0 arrayBuffer stream)
                {| Frame.arrayBuffer := arrayBuffer; Frame.parameters := None |}
                Hmode eq_refl eq_refl)
      as (_ & _ & Hpick & Hload & _).
    split; [exact Hpick|exact Hload].
Qed.

End StreamFacts.

(** The first update of the stream of one frame. *)
Lemma update_forwards_to_selected_frame_witness :
  exists parameters,
    arrayGet (_frames (fst (@update numbers counting (at3D 3) oneFrame))) 0
      = Some (@Frame.Build_t numbers 5%nat (Some parameters)) /\
    Frame.geometricError parameters = 0%Q /\
    Frame.maximumAttenuation parameters = 10%Q /\
    (0 <= Frame.time parameters)%Q.
Proof.
  destruct (@update_forwards_to_selected_frame numbers counting (at3D 3) oneFrame
              (@Frame.Build_t numbers 5%nat None))
    as (parameters & Hget & _ & _ & _ & _ & _ & Herror & Hmax & Htime & _).
  - discriminate.
  - reflexivity.
  - reflexivity.
  - exists parameters. auto.
Defined.

(** A stream with an attenuated shading and eye dome lighting whose frame
    adds no command. *)
Lemma update_keeps_eyeDomeLighting_witness :
  attenuation (pointCloudShading litFrame) = true /\
  eyeDomeLighting (pointCloudShading litFrame) = true /\
  (exists frame,
     arrayGet (_frames (fst (@update numbers silent (at3D 3) litFrame))) 0
       = Some frame) /\
  _pointCloudEyeDomeLighting (fst (@update numbers silent (at3D 3) litFrame))
    = _pointCloudEyeDomeLighting litFrame.
Proof.
  split; [reflexivity|]. split; [reflexivity|].
  split; [eexists; vm_compute; reflexivity|].
  apply (@update_keeps_eyeDomeLighting numbers silent (at3D 3) litFrame).
  right. right. intros frame _. simpl. lia.
Defined.

(** Two updates of the stream of one frame, which has no clipping planes. *)
Lemma update_unclipped_not_dirty_twice_witness :
  clippingPlanes (fst (@update numbers counting (at3D 3) oneFrame))
    = clippingPlanes oneFrame /\
  _clippingPlanesState (fst (@update numbers counting (at3D 3) oneFrame)) = 0 /\
  exists parameters,
    arrayGet (_frames (fst (@update numbers counting (at3D 4)
                              (fst (@update numbers counting (at3D 3) oneFrame))))) 0
      = Some (@Frame.Build_t numbers 5%nat (Some parameters)) /\
    Frame.clippingPlanesDirty parameters = false /\
    Frame.isClipped parameters = false.
Proof.
  apply (@update_unclipped_not_dirty_twice numbers counting (at3D 3) (at3D 4) oneFrame
           (@Frame.Build_t numbers 5%nat None)).
  - exact I.
  - discriminate.
  - discriminate.
  - reflexivity.
  - reflexivity.
Defined.

(** A frame added at index 2 of a stream that selects index 2. *)
Lemma addFrame_then_update_reaches_frame_witness :
  exists parameters,
    arrayGet (_frames (fst (@update numbers counting (at3D 3)
                              (@addFrame numbers 2 9%nat (setIndex 2 oneFrame))))) 2
      = Some (@Frame.Build_t numbers 9%nat (Some parameters)).
Proof.
  apply (@addFrame_then_update_reaches_frame numbers counting 2 9%nat (at3D 3)
           (setIndex 2 oneFrame)).
  - discriminate.
  - reflexivity.
  - reflexivity.
Defined.

(** The stream of one frame, asked for the frame at index 1. *)
Lemma update_without_frame_changes_nothing_witness :
  @update numbers counting (at3D 0) (setIndex 1 oneFrame) = (setIndex 1 oneFrame, at3D 0).
Proof.
  apply (@update_without_frame_changes_nothing numbers counting).
  right. right. reflexivity.
Defined.

End PointCloudStreamFacts.

